(** * A shallow embedding of [examples/example-client.py]

    The Python class [SalesforceMCPClient] is a JSON-RPC client: it numbers
    its requests, posts them with [requests.post], resolves the decoded
    response ([error] against [result]) and, in its convenience methods,
    unwraps the first content item of a tool-call result with [json.loads].

    The embedding keeps the shape of the source:
    - JSON-decoded Python objects are the inductive type [value]; a [dict] is
      an association list in insertion order (the order Python keeps);
    - Python exceptions are the inductive type [py_exception], and a
      computation either returns or raises ([outcome]);
    - the instance attribute [request_id] and the network are threaded
      through a state-and-exception monad [M];
    - the library calls the source relies on ([json.loads], [str()] inside
      the f-string, [Response.raise_for_status], the operators [in], [len]
      and subscripting) are modelled after their documented behaviour. *)

From Stdlib Require Import ZArith List String Ascii Bool Lia.
From Stdlib Require Import DecimalString.
Import ListNotations.

#[local] Set Warnings "-register-all".

Local Open Scope Z_scope.
Local Open Scope string_scope.

(** ** Python objects produced by JSON decoding *)

(** [JFloat] keeps the literal that denotes the float ([1.5], [1e3], [NaN],
    [Infinity], [-Infinity]); float arithmetic is not modelled.  Strings are
    byte strings holding UTF-8. *)
Inductive value : Type :=
| JNull
| JBool (b : bool)
| JInt (n : Z)
| JFloat (literal : string)
| JStr (s : string)
| JList (items : list value)
| JObj (fields : list (string * value)).

Definition dict := list (string * value).

(** [key in d] and [d.get(key)] for a dict. *)
Fixpoint dict_get (key : string) (d : dict) : option value :=
  match d with
  | [] => None
  | (k, v) :: rest => if String.eqb k key then Some v else dict_get key rest
  end.

Definition dict_mem (key : string) (d : dict) : bool :=
  match dict_get key d with Some _ => true | None => false end.

(** [d[key] = v]: an existing key keeps its position, a new one goes last. *)
Fixpoint dict_set (key : string) (v : value) (d : dict) : dict :=
  match d with
  | [] => [(key, v)]
  | (k, w) :: rest =>
      if String.eqb k key then (k, v) :: rest else (k, w) :: dict_set key v rest
  end.

(** ** Exceptions and outcomes *)

(** The ways [requests.post] fails to deliver a response; each is a subclass
    of [requests.exceptions.RequestException]. *)
Inductive request_failure : Type :=
| ConnectionError
| RequestsTimeout
| TooManyRedirects
| OtherRequestException.

Inductive py_exception : Type :=
| RequestException (k : request_failure)  (* what requests.post raises *)
| HTTPError (status : Z)          (* raised by Response.raise_for_status *)
| ResponseJSONDecodeError         (* requests.exceptions.JSONDecodeError, from Response.json *)
| PyException (message : string)  (* the builtin Exception(message) *)
| JSONDecodeError                 (* json.JSONDecodeError, from json.loads *)
| KeyError (key : value)
| IndexError
| TypeError
| AttributeError
| UnicodeEncodeError.             (* raised by print on a text it cannot encode *)

Inductive outcome (A : Type) : Type :=
| Return (a : A)
| Raise (e : py_exception).

Arguments Return {A} a.
Arguments Raise {A} e.

Definition obind {A B} (r : outcome A) (k : A -> outcome B) : outcome B :=
  match r with
  | Return a => k a
  | Raise e => Raise e
  end.

(** The failure kinds of the specification, as classes of exceptions. *)
Definition is_transport_error (e : py_exception) : bool :=
  match e with
  | RequestException _ | HTTPError _ => true
  | _ => false
  end.

Definition is_protocol_error (e : py_exception) : bool :=
  match e with
  | PyException _ => true
  | _ => false
  end.

Definition is_payload_decode_error (e : py_exception) : bool :=
  match e with
  | JSONDecodeError => true
  | _ => false
  end.

(** ** Operators of Python on decoded objects *)

(** Number of code points of a UTF-8 byte string: bytes [10xxxxxx] continue
    a code point and are not counted. *)
Definition is_continuation (c : ascii) : bool :=
  let n := N_of_ascii c in (128 <=? n)%N && (n <? 192)%N.

Fixpoint utf8_len (s : string) : Z :=
  match s with
  | EmptyString => 0
  | String c rest => (if is_continuation c then 0 else 1) + utf8_len rest
  end.

Fixpoint take_continuation (s : string) : string :=
  match s with
  | String c rest =>
      if is_continuation c then String c (take_continuation rest) else EmptyString
  | EmptyString => EmptyString
  end.

(** The first code point of a string, as a string. *)
Definition first_char (s : string) : option string :=
  match s with
  | EmptyString => None
  | String c rest => Some (String c (take_continuation rest))
  end.

Fixpoint is_substring (needle hay : string) : bool :=
  if String.prefix needle hay then true
  else match hay with
       | EmptyString => false
       | String _ rest => is_substring needle rest
       end.

Definition is_JStr (s : string) (v : value) : bool :=
  match v with
  | JStr t => String.eqb t s
  | _ => false
  end.

(** [key in x] for a string literal [key]. *)
Definition py_contains (key : string) (x : value) : outcome bool :=
  match x with
  | JObj d => Return (dict_mem key d)
  | JList l => Return (existsb (is_JStr key) l)
  | JStr s => Return (is_substring key s)
  | _ => Raise TypeError
  end.

(** [len(x)]. *)
Definition py_len (x : value) : outcome Z :=
  match x with
  | JObj d => Return (Z.of_nat (List.length d))
  | JList l => Return (Z.of_nat (List.length l))
  | JStr s => Return (utf8_len s)
  | _ => Raise TypeError
  end.

(** [x[key]] for a string literal [key]. *)
Definition py_getitem (x : value) (key : string) : outcome value :=
  match x with
  | JObj d =>
      match dict_get key d with
      | Some v => Return v
      | None => Raise (KeyError (JStr key))
      end
  | _ => Raise TypeError
  end.

(** [x[0]].  The keys of a decoded dict are strings, so [0] is never one. *)
Definition py_getitem0 (x : value) : outcome value :=
  match x with
  | JList l =>
      match l with
      | v :: _ => Return v
      | [] => Raise IndexError
      end
  | JStr s =>
      match first_char s with
      | Some c => Return (JStr c)
      | None => Raise IndexError
      end
  | JObj _ => Raise (KeyError (JInt 0))
  | _ => Raise TypeError
  end.

(** [x.get(key, default)]: only a dict has the method. *)
Definition py_get (x : value) (key : string) (default : value) : outcome value :=
  match x with
  | JObj d =>
      match dict_get key d with
      | Some v => Return v
      | None => Return default
      end
  | _ => Raise AttributeError
  end.

(** ** [json.loads]

    The decoder of the standard library, for a [str] argument, in its default
    configuration (strict strings; the constants [NaN], [Infinity] and
    [-Infinity] accepted).  It is written as a one-pass automaton with an
    explicit stack of open containers, which is structurally recursive on the
    text; it accepts the same texts and builds the same objects as the
    library's recursive-descent scanner.  Integers are unbounded; the limits
    of the interpreter on the depth of recursion and on the digits of an
    integer are not modelled.  [None] stands for [json.JSONDecodeError]. *)

Definition quote_char : ascii := ascii_of_nat 34.
Definition backslash : ascii := ascii_of_nat 92.
Definition dq : string := String quote_char EmptyString.

Definition is_ws (c : ascii) : bool :=
  let n := nat_of_ascii c in
  (Nat.eqb n 32 || Nat.eqb n 9 || Nat.eqb n 10 || Nat.eqb n 13)%bool.

Definition is_digit (c : ascii) : bool :=
  let n := nat_of_ascii c in (Nat.leb 48 n && Nat.leb n 57)%bool.

Definition digit_val (c : ascii) : Z := Z.of_nat (nat_of_ascii c) - 48.

Definition hex_val (c : ascii) : option N :=
  let n := N_of_ascii c in
  if ((48 <=? n) && (n <=? 57))%N then Some (n - 48)%N
  else if ((97 <=? n) && (n <=? 102))%N then Some (n - 87)%N
  else if ((65 <=? n) && (n <=? 70))%N then Some (n - 55)%N
  else None.

Definition hex4 (a b c d : ascii) : option N :=
  match hex_val a, hex_val b, hex_val c, hex_val d with
  | Some x, Some y, Some z, Some w => Some (((x * 16 + y) * 16 + z) * 16 + w)%N
  | _, _, _, _ => None
  end.

Definition byte (n : N) : string := String (ascii_of_N n) EmptyString.

(** UTF-8 of a code point; a lone surrogate is encoded like any other code
    point of its range. *)
Definition utf8_encode (cp : N) : string :=
  if (cp <? 128)%N then byte cp
  else if (cp <? 2048)%N then
    byte (192 + cp / 64) ++ byte (128 + cp mod 64)
  else if (cp <? 65536)%N then
    byte (224 + cp / 4096) ++ byte (128 + (cp / 64) mod 64) ++ byte (128 + cp mod 64)
  else
    byte (240 + cp / 262144) ++ byte (128 + (cp / 4096) mod 64)
      ++ byte (128 + (cp / 64) mod 64) ++ byte (128 + cp mod 64).

Definition is_high_surrogate (u : N) : bool := ((55296 <=? u) && (u <=? 56319))%N.
Definition is_low_surrogate (u : N) : bool := ((56320 <=? u) && (u <=? 57343))%N.
Definition join_surrogates (hi lo : N) : N :=
  (65536 + (hi - 55296) * 1024 + (lo - 56320))%N.

Definition simple_escape (e : ascii) : option ascii :=
  let n := nat_of_ascii e in
  if Nat.eqb n 34 then Some quote_char
  else if Nat.eqb n 92 then Some backslash
  else if Nat.eqb n 47 then Some (ascii_of_nat 47)      (* \/ *)
  else if Nat.eqb n 98 then Some (ascii_of_nat 8)       (* \b *)
  else if Nat.eqb n 102 then Some (ascii_of_nat 12)     (* \f *)
  else if Nat.eqb n 110 then Some (ascii_of_nat 10)     (* \n *)
  else if Nat.eqb n 114 then Some (ascii_of_nat 13)     (* \r *)
  else if Nat.eqb n 116 then Some (ascii_of_nat 9)      (* \t *)
  else None.

(** [emit p n r]: the scanned prefix [p], of [n] source characters, in front
    of what the rest of the scan gives. *)
Definition emit (p : string) (n : nat) (r : option (string * nat))
  : option (string * nat) :=
  match r with
  | Some (s, m) => Some (p ++ s, (n + m)%nat)
  | None => None
  end.

(** The body of a string literal, after its opening quote: the decoded string
    and the number of characters read, closing quote included. *)
Fixpoint scanstring (s : string) : option (string * nat) :=
  match s with
  | EmptyString => None
  | String c rest =>
      if Ascii.eqb c quote_char then Some (EmptyString, 1%nat)
      else if Ascii.eqb c backslash then
        match rest with
        | EmptyString => None
        | String e rest1 =>
            if Ascii.eqb e "u"%char then
              match rest1 with
              | String h1 (String h2 (String h3 (String h4 rest2))) =>
                  match hex4 h1 h2 h3 h4 with
                  | None => None
                  | Some uni =>
                      match rest2 with
                      | String b (String u (String l1 (String l2 (String l3 (String l4 rest3))))) =>
                          if (is_high_surrogate uni && Ascii.eqb b backslash
                              && Ascii.eqb u "u"%char)%bool then
                            match hex4 l1 l2 l3 l4 with
                            | None => None
                            | Some uni2 =>
                                if is_low_surrogate uni2 then
                                  emit (utf8_encode (join_surrogates uni uni2)) 12
                                    (scanstring rest3)
                                else emit (utf8_encode uni) 6 (scanstring rest2)
                            end
                          else emit (utf8_encode uni) 6 (scanstring rest2)
                      | _ => emit (utf8_encode uni) 6 (scanstring rest2)
                      end
                  end
              | _ => None
              end
            else
              match simple_escape e with
              | Some ch => emit (String ch EmptyString) 2 (scanstring rest1)
              | None => None
              end
        end
      else if Nat.ltb (nat_of_ascii c) 32 then None
      else emit (String c EmptyString) 1 (scanstring rest)
  end.

Fixpoint span_digits (s : string) : string * string :=
  match s with
  | String c rest =>
      if is_digit c then
        let (ds, r) := span_digits rest in (String c ds, r)
      else (EmptyString, s)
  | EmptyString => (EmptyString, EmptyString)
  end.

Fixpoint digits_value (acc : Z) (ds : string) : Z :=
  match ds with
  | EmptyString => acc
  | String c rest => digits_value (acc * 10 + digit_val c) rest
  end.

(** The integer part of a number: an optional minus sign, then either a
    single [0] or a digit from 1 to 9 followed by any digits. *)
Definition scan_integer (s : string) : option (bool * string * string) :=
  let (neg, s1) :=
    match s with
    | String c r => if Ascii.eqb c "-"%char then (true, r) else (false, s)
    | EmptyString => (false, s)
    end in
  match s1 with
  | String d r =>
      if Ascii.eqb d "0"%char then Some (neg, "0", r)
      else if is_digit d then
        let (ds, r') := span_digits r in Some (neg, String d ds, r')
      else None
  | EmptyString => None
  end.

(** The optional fraction: a dot and at least one digit. *)
Definition scan_frac (s : string) : string * string :=
  match s with
  | String c r =>
      if Ascii.eqb c "."%char then
        match span_digits r with
        | (EmptyString, _) => (EmptyString, s)
        | (ds, r') => (String c ds, r')
        end
      else (EmptyString, s)
  | EmptyString => (EmptyString, s)
  end.

(** The optional exponent: [e] or [E], an optional sign, at least one digit. *)
Definition scan_exp (s : string) : string * string :=
  match s with
  | String c r =>
      if (Ascii.eqb c "e"%char || Ascii.eqb c "E"%char)%bool then
        let (sign, r1) :=
          match r with
          | String g r0 =>
              if (Ascii.eqb g "+"%char || Ascii.eqb g "-"%char)%bool
              then (String g EmptyString, r0) else (EmptyString, r)
          | EmptyString => (EmptyString, r)
          end in
        match span_digits r1 with
        | (EmptyString, _) => (EmptyString, s)
        | (ds, r') => (String c (sign ++ ds), r')
        end
      else (EmptyString, s)
  | EmptyString => (EmptyString, s)
  end.

(** A number and the count of characters it spans: an [int] when it has
    neither fraction nor exponent, a [float] otherwise. *)
Definition scan_number (s : string) : option (value * nat) :=
  match scan_integer s with
  | None => None
  | Some (neg, ip, r) =>
      let (frac, r1) := scan_frac r in
      let (ex, _) := scan_exp r1 in
      let sign := if neg then "-" else "" in
      let lexeme := sign ++ ip ++ frac ++ ex in
      match frac, ex with
      | EmptyString, EmptyString =>
          let n := digits_value 0 ip in
          Some (JInt (if neg then - n else n), String.length lexeme)
      | _, _ => Some (JFloat lexeme, String.length lexeme)
      end
  end.

Inductive token : Type :=
| TLBrace | TRBrace | TLBracket | TRBracket | TColon | TComma
| TString (s : string)
| TAtom (v : value).

Definition scan_constant (s : string) : option (value * nat) :=
  if String.prefix "null" s then Some (JNull, 4%nat)
  else if String.prefix "true" s then Some (JBool true, 4%nat)
  else if String.prefix "false" s then Some (JBool false, 5%nat)
  else if String.prefix "NaN" s then Some (JFloat "NaN", 3%nat)
  else if String.prefix "Infinity" s then Some (JFloat "Infinity", 8%nat)
  else if String.prefix "-Infinity" s then Some (JFloat "-Infinity", 9%nat)
  else None.

(** The token that starts at the head of [s], and its length. *)
Definition next_token (s : string) : option (token * nat) :=
  match s with
  | EmptyString => None
  | String c rest =>
      if Ascii.eqb c "{"%char then Some (TLBrace, 1%nat)
      else if Ascii.eqb c "}"%char then Some (TRBrace, 1%nat)
      else if Ascii.eqb c "["%char then Some (TLBracket, 1%nat)
      else if Ascii.eqb c "]"%char then Some (TRBracket, 1%nat)
      else if Ascii.eqb c ":"%char then Some (TColon, 1%nat)
      else if Ascii.eqb c ","%char then Some (TComma, 1%nat)
      else if Ascii.eqb c quote_char then
        match scanstring rest with
        | Some (str, n) => Some (TString str, S n)
        | None => None
        end
      else
        match scan_constant s with
        | Some (v, n) => Some (TAtom v, n)
        | None =>
            match scan_number s with
            | Some (v, n) => Some (TAtom v, n)
            | None => None
            end
        end
  end.

(** An open container: the items of a list read so far (latest first), or
    the members of an object read so far with the key that awaits its value. *)
Inductive frame : Type :=
| FList (rev_items : list value)
| FObj (members : dict) (pending : option string).

Inductive mode : Type :=
| ExpectValue          (* at the start, after a colon, after a comma in a list *)
| ExpectValueOrClose   (* just after an opening bracket *)
| ExpectKeyOrClose     (* just after an opening brace *)
| ExpectKey            (* after a comma in an object *)
| ExpectColon          (* after a key *)
| AfterValue           (* after a value inside a container *)
| Done (v : value).    (* the top-level value is complete *)

Definition pstate : Type := mode * list frame.

(** A value is complete: it is the result, or goes into the innermost open
    container.  A repeated key keeps its first position and its last value,
    as in a Python dict. *)
Definition complete (v : value) (stack : list frame) : option pstate :=
  match stack with
  | [] => Some (Done v, [])
  | FList items :: st => Some (AfterValue, FList (v :: items) :: st)
  | FObj d (Some k) :: st => Some (AfterValue, FObj (dict_set k v d) None :: st)
  | FObj _ None :: _ => None
  end.

Definition start_value (t : token) (stack : list frame) : option pstate :=
  match t with
  | TLBracket => Some (ExpectValueOrClose, FList [] :: stack)
  | TLBrace => Some (ExpectKeyOrClose, FObj [] None :: stack)
  | TString str => complete (JStr str) stack
  | TAtom v => complete v stack
  | _ => None
  end.

Definition start_key (t : token) (stack : list frame) : option pstate :=
  match t, stack with
  | TString k, FObj d None :: st => Some (ExpectColon, FObj d (Some k) :: st)
  | _, _ => None
  end.

Definition step (st : pstate) (t : token) : option pstate :=
  let (m, stack) := st in
  match m with
  | ExpectValue => start_value t stack
  | ExpectValueOrClose =>
      match t, stack with
      | TRBracket, FList [] :: st' => complete (JList []) st'
      | _, _ => start_value t stack
      end
  | ExpectKeyOrClose =>
      match t, stack with
      | TRBrace, FObj d None :: st' => complete (JObj d) st'
      | _, _ => start_key t stack
      end
  | ExpectKey => start_key t stack
  | ExpectColon =>
      match t with
      | TColon => Some (ExpectValue, stack)
      | _ => None
      end
  | AfterValue =>
      match t, stack with
      | TComma, FList _ :: _ => Some (ExpectValue, stack)
      | TRBracket, FList items :: st' => complete (JList (rev items)) st'
      | TComma, FObj _ None :: _ => Some (ExpectKey, stack)
      | TRBrace, FObj d None :: st' => complete (JObj d) st'
      | _, _ => None
      end
  | Done _ => None
  end.

(** One pass over the text: [skip] characters belong to the token read last. *)
Fixpoint drive (s : string) (skip : nat) (st : pstate) : option value :=
  match s with
  | EmptyString =>
      match skip, st with
      | O, (Done v, _) => Some v
      | _, _ => None
      end
  | String c rest =>
      match skip with
      | S k => drive rest k st
      | O =>
          if is_ws c then drive rest O st
          else
            match next_token s with
            | None => None
            | Some (t, n) =>
                match step st t with
                | None => None
                | Some st' => drive rest (Nat.pred n) st'
                end
            end
      end
  end.

Definition json_loads (s : string) : option value :=
  drive s O (ExpectValue, []).

(** ** [str()] and [repr()] of decoded objects

    What an f-string field [{x}] renders.  A float is rendered by its
    literal (Python prints the shortest literal of the same float; [nan] and
    [inf] for the constants); bytes above 127 are taken as parts of printable
    code points and are copied (Python escapes the code points that are not
    printable).  The rendering of a string, of [None], of a boolean and of an
    integer is exact. *)

Definition hex_digit (n : nat) : ascii :=
  if Nat.ltb n 10 then ascii_of_nat (48 + n) else ascii_of_nat (87 + n).

Definition has_char (c : ascii) (s : string) : bool :=
  existsb (Ascii.eqb c) (list_ascii_of_string s).

Definition repr_char (q : ascii) (c : ascii) : string :=
  let n := nat_of_ascii c in
  if (Ascii.eqb c q || Ascii.eqb c backslash)%bool
  then String backslash (String c EmptyString)
  else if Nat.eqb n 9 then String backslash "t"
  else if Nat.eqb n 10 then String backslash "n"
  else if Nat.eqb n 13 then String backslash "r"
  else if (Nat.ltb n 32 || Nat.eqb n 127)%bool then
    String backslash
      (String "x" (String (hex_digit (n / 16)) (String (hex_digit (n mod 16)) EmptyString)))
  else String c EmptyString.

Definition repr_str (s : string) : string :=
  let q := if (has_char "'"%char s && negb (has_char quote_char s))%bool
           then quote_char else "'"%char in
  String q (concat "" (map (repr_char q) (list_ascii_of_string s)))
    ++ String q EmptyString.

Definition repr_float (literal : string) : string :=
  if String.eqb literal "NaN" then "nan"
  else if String.eqb literal "Infinity" then "inf"
  else if String.eqb literal "-Infinity" then "-inf"
  else literal.

Definition repr_int (n : Z) : string := NilZero.string_of_int (Z.to_int n).

Fixpoint py_repr (v : value) : string :=
  match v with
  | JNull => "None"
  | JBool true => "True"
  | JBool false => "False"
  | JInt n => repr_int n
  | JFloat l => repr_float l
  | JStr s => repr_str s
  | JList items => "[" ++ concat ", " (map py_repr items) ++ "]"
  | JObj d =>
      "{" ++ concat ", " (map (fun kv => repr_str (fst kv) ++ ": " ++ py_repr (snd kv)) d)
        ++ "}"
  end.

(** [str(x)]: a string is itself, anything else is its [repr]. *)
Definition py_str (v : value) : string :=
  match v with
  | JStr s => s
  | _ => py_repr v
  end.


(** [json.loads(x)] on a decoded object: only a string can be decoded. *)
Definition py_json_loads (x : value) : outcome value :=
  match x with
  | JStr s =>
      match json_loads s with
      | Some v => Return v
      | None => Raise JSONDecodeError
      end
  | _ => Raise TypeError
  end.

(** ** The HTTP exchange *)

(** The arguments of one [requests.post] call. *)
Record request : Type := {
  req_url : string;
  req_headers : list (string * string);
  req_json : value;
  req_timeout : Z
}.

(** What the source reads of a [requests.Response]. *)
Record response : Type := {
  status_code : Z;
  text : string
}.

(** [Response.raise_for_status]: [HTTPError] for a client error (4xx) or a
    server error (5xx), nothing for any other status. *)
Definition raise_for_status (r : response) : outcome unit :=
  if (Z.leb 400 (status_code r) && Z.ltb (status_code r) 600)%bool
  then Raise (HTTPError (status_code r))
  else Return tt.

(** [Response.json]. *)
Definition response_json (r : response) : outcome value :=
  match json_loads (text r) with
  | Some v => Return v
  | None => Raise ResponseJSONDecodeError
  end.

(** ** The client object *)

Record client : Type := {
  server_url : string;
  mcp_endpoint : string;
  headers : list (string * string);
  request_id : Z
}.

Definition set_request_id (self : client) (n : Z) : client :=
  {| server_url := server_url self;
     mcp_endpoint := mcp_endpoint self;
     headers := headers self;
     request_id := n |}.

Fixpoint lstrip_slash (s : string) : string :=
  match s with
  | String c rest => if Ascii.eqb c "/"%char then lstrip_slash rest else s
  | EmptyString => EmptyString
  end.

Definition string_rev (s : string) : string :=
  string_of_list_ascii (rev (list_ascii_of_string s)).

(** [s.rstrip('/')]. *)
Definition rstrip_slash (s : string) : string :=
  string_rev (lstrip_slash (string_rev s)).

(** The truth value of an [Optional[str]]. *)
Definition truthy (o : option string) : bool :=
  match o with
  | Some (String _ _) => true
  | _ => false
  end.

Definition __init__ (server_url sf_username sf_password sf_security_token
                     sf_login_url : string) (secret_key : option string) : client :=
  let url := rstrip_slash server_url in
  let hdrs := [("Content-Type", "application/json");
               ("x-sf-username", sf_username);
               ("x-sf-password", sf_password);
               ("x-sf-security-token", sf_security_token);
               ("x-sf-login-url", sf_login_url)] in
  {| server_url := url;
     mcp_endpoint := url ++ "/mcp";
     headers := if truthy secret_key
                then hdrs ++ [("x-secret-key", match secret_key with
                                               | Some k => k
                                               | None => EmptyString
                                               end)]
                else hdrs;
     request_id := 0 |}.

(** [params or {}] for an [Optional[Dict]]: [None] and the empty dict are
    both falsy. *)
Definition params_or_empty (params : option dict) : dict :=
  match params with
  | Some (kv :: d) => kv :: d
  | _ => []
  end.

(** Lines 85 to 88 of the source, the tail of [_call_jsonrpc]: the decoded
    response is resolved into the result or the raised exception. *)
Definition resolve (result : value) : outcome value :=
  obind (py_contains "error" result) (fun has_error =>
  if has_error then
    obind (py_getitem result "error") (fun e =>
    Raise (PyException ("MCP Error: " ++ py_str e)))
  else py_get result "result" (JObj [])).

(** Lines 128 to 130 of the source, repeated in [query], [tooling_query],
    [describe_object] and [retrieve_metadata]: the test
    ["content" in result and len(result["content"]) > 0], then the decoding
    of the first item's text, or the result itself. *)
Definition has_content (result : value) : outcome bool :=
  obind (py_contains "content" result) (fun present =>
  if present then
    obind (py_getitem result "content") (fun content =>
    obind (py_len content) (fun n =>
    Return (Z.ltb 0 n)))
  else Return false).

Definition unwrap_content (result : value) : outcome value :=
  obind (has_content result) (fun nonempty =>
  if nonempty then
    obind (py_getitem result "content") (fun content =>
    obind (py_getitem0 content) (fun item =>
    obind (py_getitem item "text") (fun t =>
    py_json_loads t)))
  else Return result).

(** ** The methods, over the state of the client and of the network *)

Section Client.

(** The network and the server behind it: a state of their own and the
    function that answers one [requests.post]. *)
Context {World : Type}.
Variable requests_post : World -> request -> World * (request_failure + response).

(** The client object, the network, and the record of the calls made to
    [requests.post], oldest first. *)
Record machine : Type := {
  self : client;
  world : World;
  wire : list request
}.

Definition M (A : Type) : Type := machine -> machine * outcome A.

Definition ret {A} (a : A) : M A := fun m => (m, Return a).

Definition lift {A} (r : outcome A) : M A := fun m => (m, r).

Definition bind {A B} (c : M A) (k : A -> M B) : M B :=
  fun m =>
    match c m with
    | (m', Return a) => k a m'
    | (m', Raise e) => (m', Raise e)
    end.

Notation "x <- c ;; k" := (bind c (fun x => k))
  (at level 100, c at next level, right associativity).

Definition get_self : M client := fun m => (m, Return (self m)).

(** [self.request_id += 1; return self.request_id]. *)
Definition _next_id : M Z :=
  fun m =>
    let n := request_id (self m) + 1 in
    ({| self := set_request_id (self m) n; world := world m; wire := wire m |},
     Return n).

(** One call of [requests.post]: recorded on the wire, answered by the
    network. *)
Definition post (rq : request) : M response :=
  fun m =>
    let (w, answer) := requests_post (world m) rq in
    ({| self := self m; world := w; wire := wire m ++ [rq] |},
     match answer with
     | inl f => Raise (RequestException f)
     | inr r => Return r
     end).

Definition _call_jsonrpc (method : string) (params : option dict) : M value :=
  id <- _next_id ;;
  let payload := JObj [("jsonrpc", JStr "2.0");
                       ("id", JInt id);
                       ("method", JStr method);
                       ("params", JObj (params_or_empty params))] in
  me <- get_self ;;
  response <- post {| req_url := mcp_endpoint me;
                      req_headers := headers me;
                      req_json := payload;
                      req_timeout := 60 |} ;;
  _ <- lift (raise_for_status response) ;;
  result <- lift (response_json response) ;;
  lift (resolve result).

Definition initialize : M value := _call_jsonrpc "initialize" None.

Definition list_tools : M value := _call_jsonrpc "tools/list" None.

Definition call_tool (tool_name : string) (arguments : dict) : M value :=
  _call_jsonrpc "tools/call"
    (Some [("name", JStr tool_name); ("arguments", JObj arguments)]).

Definition query (soql : string) : M value :=
  result <- call_tool "query" [("query", JStr soql)] ;;
  lift (unwrap_content result).

Definition tooling_query (q : string) : M value :=
  result <- call_tool "tooling-query" [("query", JStr q)] ;;
  lift (unwrap_content result).

Definition describe_object (object_name : string) (detailed : bool) : M value :=
  result <- call_tool "describe-object"
              [("objectName", JStr object_name); ("detailed", JBool detailed)] ;;
  lift (unwrap_content result).

Definition retrieve_metadata (metadata_type : string) (full_names : list value)
  : M value :=
  result <- call_tool "metadata-retrieve"
              [("type", JStr metadata_type); ("fullNames", JList full_names)] ;;
  lift (unwrap_content result).

(** *** Sequences of calls on one instance *)

Inductive call : Type :=
| CallJsonrpc (method : string) (params : option dict)
| Initialize
| ListTools
| CallTool (tool_name : string) (arguments : dict)
| Query (soql : string)
| ToolingQuery (q : string)
| DescribeObject (object_name : string) (detailed : bool)
| RetrieveMetadata (metadata_type : string) (full_names : list value).

Definition perform (c : call) : M value :=
  match c with
  | CallJsonrpc method params => _call_jsonrpc method params
  | Initialize => initialize
  | ListTools => list_tools
  | CallTool tool_name arguments => call_tool tool_name arguments
  | Query soql => query soql
  | ToolingQuery q => tooling_query q
  | DescribeObject object_name detailed => describe_object object_name detailed
  | RetrieveMetadata metadata_type full_names =>
      retrieve_metadata metadata_type full_names
  end.

(** The caller makes the calls one after the other on the same instance
    and goes on whatever each one returns or raises. *)
Fixpoint perform_all (cs : list call) (m : machine) : machine * list (outcome value) :=
  match cs with
  | [] => (m, [])
  | c :: rest =>
      let (m1, r) := perform c m in
      let (m2, rs) := perform_all rest m1 in
      (m2, r :: rs)
  end.

(** A new instance, before its first call. *)
Definition fresh (c : client) (w : World) : machine :=
  {| self := c; world := w; wire := [] |}.

End Client.

(** The id attached to an outbound request. *)
Definition sent_id (rq : request) : option Z :=
  match req_json rq with
  | JObj d =>
      match dict_get "id" d with
      | Some (JInt n) => Some n
      | _ => None
      end
  | _ => None
  end.

Definition sent_ids (l : list request) : list (option Z) := map sent_id l.

(** The request that a call of [_call_jsonrpc] posts when it is given the
    id [id]. *)
Definition jsonrpc_request (me : client) (id : Z) (method : string)
  (params : option dict) : request :=
  {| req_url := mcp_endpoint me;
     req_headers := headers me;
     req_json := JObj [("jsonrpc", JStr "2.0");
                       ("id", JInt id);
                       ("method", JStr method);
                       ("params", JObj (params_or_empty params))];
     req_timeout := 60 |}.

(** What the rest of [_call_jsonrpc] makes of the answer of the network. *)
Definition settle (answer : request_failure + response) : outcome value :=
  match answer with
  | inl f => Raise (RequestException f)
  | inr r =>
      obind (raise_for_status r) (fun _ =>
      obind (response_json r) resolve)
  end.

(** The method and the parameters of the one JSON-RPC call behind each
    operation of the client. *)
Definition rpc_of (c : call) : string * option dict :=
  match c with
  | CallJsonrpc method params => (method, params)
  | Initialize => ("initialize", None)
  | ListTools => ("tools/list", None)
  | CallTool tool_name arguments =>
      ("tools/call", Some [("name", JStr tool_name); ("arguments", JObj arguments)])
  | Query soql =>
      ("tools/call",
       Some [("name", JStr "query"); ("arguments", JObj [("query", JStr soql)])])
  | ToolingQuery q =>
      ("tools/call",
       Some [("name", JStr "tooling-query"); ("arguments", JObj [("query", JStr q)])])
  | DescribeObject object_name detailed =>
      ("tools/call",
       Some [("name", JStr "describe-object");
             ("arguments", JObj [("objectName", JStr object_name);
                                 ("detailed", JBool detailed)])])
  | RetrieveMetadata metadata_type full_names =>
      ("tools/call",
       Some [("name", JStr "metadata-retrieve");
             ("arguments", JObj [("type", JStr metadata_type);
                                 ("fullNames", JList full_names)])])
  end.

(** The machine after a call that posted [rq] and got the world [w] back. *)
Definition after_call {World : Type} (m : @machine World) (w : World)
  (rq : request) : machine :=
  {| self := set_request_id (self m) (request_id (self m) + 1);
     world := w;
     wire := wire m ++ [rq] |}.

(** The ids that [n] calls issue after the counter has reached [k]. *)
Definition ids_after (k : Z) (n : nat) : list (option Z) :=
  map (fun i => Some (k + Z.of_nat i)) (seq 1 n).

(** A server that gives the same response to every request, and a network
    that fails every request in the same way; both without state. *)
Definition constant_server (r : response)
  : unit -> request -> unit * (request_failure + response) :=
  fun _ _ => (tt, inr r).

Definition failing_network (f : request_failure)
  : unit -> request -> unit * (request_failure + response) :=
  fun _ _ => (tt, inl f).

(** The instance that [main] builds. *)
Definition example_client : client :=
  __init__ "http://localhost:8080" "your-username@example.com" "your-password"
    "your-security-token" "https://login.salesforce.com" None.

(** The tool-call result with the single content item of text [t]. *)
Definition text_envelope (t : string) : value :=
  JObj [("content", JList [JObj [("type", JStr "text"); ("text", JStr t)]])].

(** ** Iteration, and the function [main] *)

(** The code points of a UTF-8 byte string, each as a string: continuation
    bytes stay with the byte that leads them. *)
Fixpoint chars_aux (s : string) : string * list string :=
  match s with
  | EmptyString => (EmptyString, [])
  | String c rest =>
      let (pending, l) := chars_aux rest in
      if is_continuation c then (String c pending, l)
      else (EmptyString, String c pending :: l)
  end.

Definition chars (s : string) : list string :=
  match chars_aux s with
  | (EmptyString, l) => l
  | (pending, l) => pending :: l
  end.

(** What [for x in v] goes through: the items of a list, the characters of
    a string, the keys of a dict; nothing else can be iterated. *)
Definition py_iter (v : value) : outcome (list value) :=
  match v with
  | JList l => Return l
  | JStr s => Return (map JStr (chars s))
  | JObj d => Return (map (fun kv => JStr (fst kv)) d)
  | _ => Raise TypeError
  end.

(** The comprehension [[tool['name'] for tool in tools]] over the items that
    the iteration gives. *)
Fixpoint tool_names (tools : list value) : outcome (list value) :=
  match tools with
  | [] => Return []
  | tool :: rest =>
      obind (py_getitem tool "name") (fun n =>
      obind (tool_names rest) (fun ns =>
      Return (n :: ns)))
  end.

(** The line [f"  - {record.get('Name')} ({record.get('Id')})"]. *)
Definition record_line (record : value) : outcome string :=
  obind (py_get record "Name" JNull) (fun name =>
  obind (py_get record "Id" JNull) (fun id =>
  Return ("  - " ++ py_str name ++ " (" ++ py_str id ++ ")"))).

(** The lines of a text that a newline ends: the pieces between its
    newline characters. *)
Fixpoint split_lines (s : string) : list string :=
  match s with
  | EmptyString => [EmptyString]
  | String c rest =>
      if Nat.eqb (nat_of_ascii c) 10 then EmptyString :: split_lines rest
      else
        match split_lines rest with
        | l :: ls => String c l :: ls
        | [] => [String c EmptyString]
        end
  end.

(** A surrogate in a UTF-8 byte string: the byte 237 followed by a byte from
    160 to 191 (the code points from U+D800 to U+DFFF, which [json.loads]
    builds from a lone [\u] escape). *)
Fixpoint has_surrogate (s : string) : bool :=
  match s with
  | EmptyString => false
  | String c rest =>
      (Nat.eqb (nat_of_ascii c) 237
       && match rest with
          | String c2 _ =>
              Nat.leb 160 (nat_of_ascii c2) && Nat.leb (nat_of_ascii c2) 191
          | EmptyString => false
          end
       || has_surrogate rest)%bool
  end.

(** The texts that the UTF-8 codec encodes. *)
Definition encodable (s : string) : bool := negb (has_surrogate s).

(** The query texts of [main]. *)
Definition accounts_soql : string := "SELECT Id, Name FROM Account LIMIT 5".
Definition apex_soql : string := "SELECT Id, Name FROM ApexClass LIMIT 5".

Section Main.

Context {World : Type}.
Variable requests_post : World -> request -> World * (request_failure + response).

(** A program that uses the client and prints: the machine and the lines of
    the text written to the standard output, oldest first. *)
Definition P (A : Type) : Type :=
  @machine World -> list string -> @machine World * list string * outcome A.

Definition pbind {A B} (c : P A) (k : A -> P B) : P B :=
  fun m out =>
    match c m out with
    | (m', out', Return a) => k a m' out'
    | (m', out', Raise e) => (m', out', Raise e)
    end.

Notation "x <- c ;; k" := (pbind c (fun x => k))
  (at level 100, c at next level, right associativity).

(** A method of the client, inside a program. *)
Definition method {A} (c : @M World A) : P A :=
  fun m out => let (m', r) := c m in (m', out, r).

(** An expression that can raise. *)
Definition expr {A} (r : outcome A) : P A := fun m out => (m, out, r).

(** [print(text)] on a standard output encoded in UTF-8, the default: the
    text and a newline are written, which adds the lines of the text to the
    output; a text that holds a surrogate cannot be encoded, and then
    nothing is written and [UnicodeEncodeError] is raised. *)
Definition print (text : string) : P unit :=
  fun m out =>
    if encodable text then (m, (out ++ split_lines text)%list, Return tt)
    else (m, out, Raise UnicodeEncodeError).

(** [for record in records: print(...)], on the items of the iteration. *)
Fixpoint print_records (records : list value) : P unit :=
  match records with
  | [] => expr (Return tt)
  | record :: rest =>
      line <- expr (record_line record) ;;
      _ <- print line ;;
      print_records rest
  end.

(** The body of [main] once the client is built. *)
Definition main_body : P unit :=
  _ <- print "Initializing MCP connection..." ;;
  init_result <- method (initialize requests_post) ;;
  server_info <- expr (py_get init_result "serverInfo" JNull) ;;
  _ <- print ("Server Info: " ++ py_str server_info) ;;
  _ <- print "" ;;
  _ <- print "Listing available tools..." ;;
  tools_result <- method (list_tools requests_post) ;;
  tools <- expr (py_get tools_result "tools" (JList [])) ;;
  names <- expr (obind (py_iter tools) tool_names) ;;
  _ <- print ("Available tools: " ++ py_str (JList names)) ;;
  _ <- print "" ;;
  _ <- print "Querying Accounts..." ;;
  accounts <- method (query requests_post accounts_soql) ;;
  total <- expr (py_get accounts "totalSize" (JInt 0)) ;;
  _ <- print ("Found " ++ py_str total ++ " accounts") ;;
  records <- expr (obind (py_get accounts "records" (JList [])) py_iter) ;;
  _ <- print_records records ;;
  _ <- print "" ;;
  _ <- print "Describing Account object..." ;;
  account_meta <- method (describe_object requests_post "Account" false) ;;
  label <- expr (py_get account_meta "label" JNull) ;;
  _ <- print ("Account label: " ++ py_str label) ;;
  n_fields <- expr (obind (py_get account_meta "fields" (JList [])) py_len) ;;
  _ <- print ("Number of fields: " ++ repr_int n_fields) ;;
  _ <- print "" ;;
  _ <- print "Listing Apex Classes..." ;;
  apex_classes <- method (tooling_query requests_post apex_soql) ;;
  apex_total <- expr (py_get apex_classes "totalSize" (JInt 0)) ;;
  _ <- print ("Found " ++ py_str apex_total ++ " Apex classes") ;;
  apex_records <- expr (obind (py_get apex_classes "records" (JList [])) py_iter) ;;
  _ <- print_records apex_records ;;
  _ <- print "" ;;
  print "Done!".

(** [main]: a new client with the constants of the source, nothing printed
    yet, on the network in the state [w]. *)
Definition main (w : World) : @machine World * list string * outcome unit :=
  main_body (fresh example_client w) [].

End Main.

(** A server that answers the successive requests with the successive
    bodies of a script, with the status 200, and refuses the connection once
    the script is over. *)
Definition scripted_server
  : list string -> request -> list string * (request_failure + response) :=
  fun script _ =>
    match script with
    | body :: rest => (rest, inr {| status_code := 200; text := body |})
    | [] => ([], inl ConnectionError)
    end.

(** The five requests of [main], in the order in which it posts them. *)
Definition main_requests : list request :=
  [jsonrpc_request example_client 1 "initialize" None;
   jsonrpc_request example_client 2 "tools/list" None;
   jsonrpc_request example_client 3 (fst (rpc_of (Query accounts_soql)))
     (snd (rpc_of (Query accounts_soql)));
   jsonrpc_request example_client 4 (fst (rpc_of (DescribeObject "Account" false)))
     (snd (rpc_of (DescribeObject "Account" false)));
   jsonrpc_request example_client 5 (fst (rpc_of (ToolingQuery apex_soql)))
     (snd (rpc_of (ToolingQuery apex_soql)))].

(** The operations of [main], in its order. *)
Definition main_calls : list call :=
  [Initialize; ListTools; Query accounts_soql; DescribeObject "Account" false;
   ToolingQuery apex_soql].

(** The requests that the calls [cs] post, one after the other, on an
    instance [me] whose counter has reached [k]. *)
Fixpoint requests_of (me : client) (k : Z) (cs : list call) : list request :=
  match cs with
  | [] => []
  | c :: rest =>
      jsonrpc_request me (k + 1) (fst (rpc_of c)) (snd (rpc_of c))
        :: requests_of me (k + 1) rest
  end.

(** The operations that unwrap the result of the tool. *)
Definition unwraps (c : call) : bool :=
  match c with
  | Query _ | ToolingQuery _ | DescribeObject _ _ | RetrieveMetadata _ _ => true
  | _ => false
  end.

(** The objects on which [in] and [len] are defined. *)
Definition is_container (v : value) : bool :=
  match v with
  | JList _ | JStr _ | JObj _ => true
  | _ => false
  end.

(** [k] slashes. *)
Definition slashes (k : nat) : string := string_of_list_ascii (repeat "/"%char k).


Section ProgramSpecs.

Context {World : Type}.
Variable requests_post : World -> request -> World * (request_failure + response).

(** [posts c cs]: the program [c] makes the calls [cs] in this order and
    stops at the first step that raises; it leaves the client and the network
    as the calls it has made leave them. *)
Definition posts {A} (c : @P World A) (cs : list call) : Prop :=
  forall m out,
  exists n : nat,
    (n <= List.length cs)%nat
    /\ fst (fst (c m out)) = fst (perform_all requests_post (firstn n cs) m)
    /\ (forall a, snd (c m out) = Return a -> n = List.length cs).

(** [writes c]: the program [c] only adds lines to the output. *)
Definition writes {A} (c : @P World A) : Prop :=
  forall m out,
  exists lines : list string, snd (fst (c m out)) = (out ++ lines)%list.

(** [ends_with last c]: the program [c] only adds lines to the output, and
    when it returns the line added last is [last]. *)
Definition ends_with {A} (last : string) (c : @P World A) : Prop :=
  forall m out,
  exists lines : list string,
    match snd (c m out) with
    | Return _ => snd (fst (c m out)) = (out ++ lines ++ [last])%list
    | Raise _ => snd (fst (c m out)) = (out ++ lines)%list
    end.

End ProgramSpecs.



(** The body of a response that carries a tool-call result whose one content
    item has the text [{"totalSize": 1}] (with its quotes escaped). *)
Definition example_tool_response : string :=
  let esc := String backslash dq in
  "{" ++ dq ++ "result" ++ dq ++ ": {" ++ dq ++ "content" ++ dq ++ ": [{"
    ++ dq ++ "type" ++ dq ++ ": " ++ dq ++ "text" ++ dq ++ ", "
    ++ dq ++ "text" ++ dq ++ ": " ++ dq ++ "{" ++ esc ++ "totalSize" ++ esc ++ ": 1}" ++ dq
    ++ "}]}}".

(** * Properties *)

(** ** One JSON-RPC call *)

Section CallFacts.

Context {World : Type}.
Variable requests_post : World -> request -> World * (request_failure + response).

(** [_call_jsonrpc] takes one id, posts one request, and settles the
    answer; nothing else touches the machine. *)
Lemma call_jsonrpc_eq (method : string) (params : option dict) (m : machine) :
  let rq := jsonrpc_request (self m) (request_id (self m) + 1) method params in
  _call_jsonrpc requests_post method params m =
    (after_call m (fst (requests_post (world m) rq)) rq,
     settle (snd (requests_post (world m) rq))).
Proof.
  cbv zeta. unfold _call_jsonrpc, bind, _next_id, get_self, post, lift, jsonrpc_request.
  cbn [self world wire set_request_id mcp_endpoint headers request_id].
  destruct (requests_post _ _) as [w [f | r]]; cbn [fst snd settle]; [reflexivity|].
  destruct (raise_for_status r) as [[]|e]; cbn [obind]; [|reflexivity].
  destruct (response_json r) as [v|e]; cbn [obind]; reflexivity.
Qed.

(** A convenience method is [call_tool] followed by the unwrapping. *)
Lemma unwrapping_after (c : @M World value) (m : machine) :
  bind c (fun result => lift (unwrap_content result)) m =
    (fst (c m), obind (snd (c m)) unwrap_content).
Proof.
  unfold bind, lift. destruct (c m) as [m' [v|e]]; reflexivity.
Qed.

(** Every operation makes exactly the JSON-RPC call [rpc_of] names. *)
Lemma perform_machine (c : call) (m : machine) :
  fst (perform requests_post c m) =
    fst (_call_jsonrpc requests_post (fst (rpc_of c)) (snd (rpc_of c)) m).
Proof.
  destruct c; cbn [perform rpc_of fst snd]; try reflexivity;
    unfold query, tooling_query, describe_object, retrieve_metadata;
    rewrite unwrapping_after; reflexivity.
Qed.

(** In [query], [tooling_query], [describe_object] and [retrieve_metadata]
    the outcome is that of the call, unwrapped; the other operations return
    the outcome of the call. *)
Lemma perform_outcome (c : call) (m : machine) :
  let r := snd (_call_jsonrpc requests_post (fst (rpc_of c)) (snd (rpc_of c)) m) in
  snd (perform requests_post c m) =
    match c with
    | Query _ | ToolingQuery _ | DescribeObject _ _ | RetrieveMetadata _ _ =>
        obind r unwrap_content
    | _ => r
    end.
Proof.
  destruct c; cbn [perform rpc_of fst snd]; try reflexivity;
    unfold query, tooling_query, describe_object, retrieve_metadata;
    rewrite unwrapping_after; reflexivity.
Qed.

Lemma perform_request_id (c : call) (m : machine) :
  request_id (self (fst (perform requests_post c m))) = request_id (self m) + 1.
Proof.
  rewrite perform_machine, call_jsonrpc_eq. reflexivity.
Qed.

Lemma perform_wire (c : call) (m : machine) :
  wire (fst (perform requests_post c m)) =
    (wire m ++ [jsonrpc_request (self m) (request_id (self m) + 1)
                  (fst (rpc_of c)) (snd (rpc_of c))])%list.
Proof.
  rewrite perform_machine, call_jsonrpc_eq. reflexivity.
Qed.

Lemma ids_after_S (k : Z) (n : nat) :
  ids_after k (S n) = Some (k + 1) :: ids_after (k + 1) n.
Proof.
  unfold ids_after. cbn [seq map]. f_equal.
  rewrite <- seq_shift, map_map. apply map_ext. intros i. f_equal. lia.
Qed.

Lemma perform_all_ids (cs : list call) (m : machine) :
  sent_ids (wire (fst (perform_all requests_post cs m))) =
    (sent_ids (wire m) ++ ids_after (request_id (self m)) (List.length cs))%list
  /\ request_id (self (fst (perform_all requests_post cs m))) =
       request_id (self m) + Z.of_nat (List.length cs).
Proof.
  revert m. induction cs as [|c cs IH]; intros m.
  - cbn. split; [now rewrite app_nil_r | lia].
  - cbn [perform_all].
    destruct (perform requests_post c m) as [m1 r] eqn:E1.
    destruct (perform_all requests_post cs m1) as [m2 rs] eqn:E2.
    assert (Hm1 : m1 = fst (perform requests_post c m)) by now rewrite E1.
    assert (Hm2 : m2 = fst (perform_all requests_post cs m1)) by now rewrite E2.
    destruct (IH m1) as [IHw IHid]. rewrite <- Hm2 in IHw, IHid.
    cbn [fst]. rewrite IHw, IHid, Hm1, perform_wire, perform_request_id.
    cbn [List.length]. rewrite ids_after_S. unfold sent_ids.
    rewrite map_app, <- app_assoc. cbn [map app sent_id jsonrpc_request req_json dict_get].
    split; [reflexivity | lia].
Qed.

End CallFacts.

(** C1.  Whatever the network answers, the requests that [N] calls on one
    new instance post carry the ids [1], [2], ..., [N], in this order: every
    operation takes exactly one id, before the request is sent, so a call
    that raises (transport, protocol or decoding) uses up its id like one
    that returns. *)
Theorem issued_ids_are_1_to_N
  {World : Type} (requests_post : World -> request -> World * (request_failure + response))
  (server_url sf_username sf_password sf_security_token sf_login_url : string)
  (secret_key : option string) (w : World) (cs : list call) :
  let me := __init__ server_url sf_username sf_password sf_security_token
              sf_login_url secret_key in
  sent_ids (wire (fst (perform_all requests_post cs (fresh me w)))) =
    map (fun i => Some (Z.of_nat i)) (seq 1 (List.length cs)).
Proof.
  cbv zeta.
  destruct (perform_all_ids requests_post cs
              (fresh (__init__ server_url sf_username sf_password sf_security_token
                        sf_login_url secret_key) w)) as [Hw _].
  rewrite Hw. reflexivity.
Qed.

(** ** Resolution of the decoded response *)

(** The only way the resolution raises the builtin [Exception]. *)
Lemma resolve_protocol_error_inv (result : value) (e : py_exception) :
  resolve result = Raise e ->
  is_protocol_error e = true ->
  exists (d : dict) (E : value),
    result = JObj d /\ dict_get "error" d = Some E
    /\ e = PyException ("MCP Error: " ++ py_str E).
Proof.
  unfold resolve. intros H Hp.
  destruct result as [| b | n | l | s | items | d]; cbn in H;
    try (injection H as <-; discriminate).
  - destruct (is_substring "error" s); cbn in H; injection H as <-; discriminate.
  - destruct (existsb (is_JStr "error") items); cbn in H; injection H as <-; discriminate.
  - unfold dict_mem in H. destruct (dict_get "error" d) as [E|] eqn:HE; cbn in H.
    + exists d, E. injection H as <-. repeat split; try reflexivity; exact HE.
    + destruct (dict_get "result" d); discriminate.
Qed.


(** C2.  A decoded response that is a mapping with an [error] key makes the
    resolution raise the exception [Exception("MCP Error: ...")] built from
    the payload [E] under that key.  The test of [error] comes first and
    [result] is not looked at, so a [result] key in the same mapping changes
    nothing. *)
Theorem error_takes_precedence (d : dict) (E : value) :
  dict_get "error" d = Some E ->
  resolve (JObj d) = Raise (PyException ("MCP Error: " ++ py_str E))
  /\ forall R : value,
       resolve (JObj (("result", R) :: d)) =
         Raise (PyException ("MCP Error: " ++ py_str E)).
Proof.
  intros H. split; [|intros R];
    unfold resolve, py_contains, py_getitem, dict_mem; cbn [dict_get String.eqb];
    cbn; rewrite H; reflexivity.
Qed.

Lemma error_takes_precedence_witness :
  let d := [("result", JObj [("ok", JBool true)]);
            ("error", JObj [("code", JInt (-32000)); ("message", JStr "boom")])] in
  dict_get "error" d = Some (JObj [("code", JInt (-32000)); ("message", JStr "boom")])
  /\ resolve (JObj d) =
       Raise (PyException "MCP Error: {'code': -32000, 'message': 'boom'}").
Proof.
  cbv zeta. split; [reflexivity|].
  apply (error_takes_precedence
           [("result", JObj [("ok", JBool true)]);
            ("error", JObj [("code", JInt (-32000)); ("message", JStr "boom")])]
           (JObj [("code", JInt (-32000)); ("message", JStr "boom")])).
  reflexivity.
Defined.

(** C6.  A decoded response that is a mapping with neither an [error] nor a
    [result] key resolves to the empty mapping: [result.get("result", {})]
    returns its default and nothing is raised. *)
Theorem neither_field_resolves_to_empty (d : dict) :
  dict_get "error" d = None ->
  dict_get "result" d = None ->
  resolve (JObj d) = Return (JObj []).
Proof.
  intros He Hr. unfold resolve, py_contains, py_get, dict_mem.
  rewrite He. cbn [obind]. rewrite Hr. reflexivity.
Qed.

Lemma neither_field_resolves_to_empty_witness :
  dict_get "error" [("jsonrpc", JStr "2.0"); ("id", JInt 1)] = None
  /\ dict_get "result" [("jsonrpc", JStr "2.0"); ("id", JInt 1)] = None
  /\ resolve (JObj [("jsonrpc", JStr "2.0"); ("id", JInt 1)]) = Return (JObj []).
Proof.
  split; [reflexivity|]. split; [reflexivity|].
  apply (neither_field_resolves_to_empty [("jsonrpc", JStr "2.0"); ("id", JInt 1)]);
    reflexivity.
Defined.

(** C7, as the specification states it, fails: the payload is not attached
    to the exception.  The string ["1"] and the integer [1] are two payloads,
    and the failures raised for them are the same exception, with the same
    message; nothing the caller reads from it tells them apart. *)
Lemma payload_is_rendered_not_attached :
  resolve (JObj [("error", JStr "1")]) = Raise (PyException "MCP Error: 1")
  /\ resolve (JObj [("error", JInt 1)]) = Raise (PyException "MCP Error: 1")
  /\ JStr "1" <> JInt 1.
Proof.
  split; [reflexivity|]. split; [reflexivity|]. discriminate.
Qed.

(** C7, amended.  Whenever the resolution fails with a protocol error, the
    response is a mapping with an [error] key, and what the exception carries
    is one string: ["MCP Error: "] followed by the [str()] rendering of the
    payload under that key. *)
Theorem protocol_error_carries_rendering (result : value) (e : py_exception) :
  resolve result = Raise e ->
  is_protocol_error e = true ->
  exists (d : dict) (E : value),
    result = JObj d /\ dict_get "error" d = Some E
    /\ e = PyException ("MCP Error: " ++ py_str E).
Proof.
  exact (resolve_protocol_error_inv result e).
Qed.

Lemma protocol_error_carries_rendering_witness :
  resolve (JObj [("error", JObj [("code", JInt 404)])]) =
    Raise (PyException "MCP Error: {'code': 404}")
  /\ is_protocol_error (PyException "MCP Error: {'code': 404}") = true
  /\ exists (d : dict) (E : value),
       JObj [("error", JObj [("code", JInt 404)])] = JObj d
       /\ dict_get "error" d = Some E
       /\ PyException "MCP Error: {'code': 404}" = PyException ("MCP Error: " ++ py_str E).
Proof.
  split; [reflexivity|]. split; [reflexivity|].
  apply (protocol_error_carries_rendering
           (JObj [("error", JObj [("code", JInt 404)])])
           (PyException "MCP Error: {'code': 404}")); reflexivity.
Defined.

(** ** Unwrapping of a tool-call result *)

(** The test of the unwrapping on a mapping whose [content] is a list. *)
Lemma has_content_list (d : dict) (items : list value) :
  dict_get "content" d = Some (JList items) ->
  has_content (JObj d) = Return (match items with [] => false | _ :: _ => true end).
Proof.
  intros H. unfold has_content, py_contains, py_getitem, py_len, dict_mem.
  rewrite H. cbn [obind]. destruct items; reflexivity.
Qed.

(** C3.  When [content] is a non-empty list, the unwrapping returns what
    [json.loads] makes of the [text] of its first item; the envelope with the
    one item of text [{"a":1}] unwraps to the mapping of [a] to [1]. *)
Theorem unwrap_decodes_first_text :
  (forall (d fields : dict) (rest : list value) (s : string) (v : value),
      dict_get "content" d = Some (JList (JObj fields :: rest)) ->
      dict_get "text" fields = Some (JStr s) ->
      json_loads s = Some v ->
      unwrap_content (JObj d) = Return v)
  /\ unwrap_content (text_envelope ("{" ++ dq ++ "a" ++ dq ++ ":1}")) =
       Return (JObj [("a", JInt 1)]).
Proof.
  split; [|reflexivity].
  intros d fields rest s v Hc Ht Hj. unfold unwrap_content.
  rewrite (has_content_list d _ Hc). cbn [obind].
  unfold py_getitem. rewrite Hc. cbn [obind py_getitem0]. rewrite Ht.
  cbn [obind py_json_loads]. rewrite Hj. reflexivity.
Qed.

Lemma unwrap_decodes_first_text_witness :
  let fields := [("type", JStr "text"); ("text", JStr "[1, 2]")] in
  let d := [("isError", JBool false); ("content", JList [JObj fields; JNull])] in
  dict_get "content" d = Some (JList (JObj fields :: [JNull]))
  /\ dict_get "text" fields = Some (JStr "[1, 2]")
  /\ json_loads "[1, 2]" = Some (JList [JInt 1; JInt 2])
  /\ unwrap_content (JObj d) = Return (JList [JInt 1; JInt 2]).
Proof.
  cbv zeta. repeat (split; [reflexivity|]).
  apply (proj1 unwrap_decodes_first_text
           [("isError", JBool false);
            ("content", JList [JObj [("type", JStr "text"); ("text", JStr "[1, 2]")]; JNull])]
           [("type", JStr "text"); ("text", JStr "[1, 2]")]
           [JNull] "[1, 2]" (JList [JInt 1; JInt 2])); reflexivity.
Defined.

(** C5.  When the [text] of the first content item is a string that
    [json.loads] rejects, the unwrapping raises [json.JSONDecodeError]: there
    is no handler between [json.loads] and the caller and no other value is
    returned.  The text [not-json] is such a string. *)
Theorem undecodable_text_raises :
  (forall (d fields : dict) (rest : list value) (s : string),
      dict_get "content" d = Some (JList (JObj fields :: rest)) ->
      dict_get "text" fields = Some (JStr s) ->
      json_loads s = None ->
      unwrap_content (JObj d) = Raise JSONDecodeError)
  /\ unwrap_content (text_envelope "not-json") = Raise JSONDecodeError
  /\ is_payload_decode_error JSONDecodeError = true.
Proof.
  split; [|split; reflexivity].
  intros d fields rest s Hc Ht Hj. unfold unwrap_content.
  rewrite (has_content_list d _ Hc). cbn [obind].
  unfold py_getitem. rewrite Hc. cbn [obind py_getitem0]. rewrite Ht.
  cbn [obind py_json_loads]. rewrite Hj. reflexivity.
Qed.

Lemma undecodable_text_raises_witness :
  let fields := [("type", JStr "text"); ("text", JStr "{1: 2}")] in
  let d := [("content", JList [JObj fields])] in
  dict_get "content" d = Some (JList (JObj fields :: []))
  /\ dict_get "text" fields = Some (JStr "{1: 2}")
  /\ json_loads "{1: 2}" = None
  /\ unwrap_content (JObj d) = Raise JSONDecodeError.
Proof.
  cbv zeta. repeat (split; [reflexivity|]).
  apply (proj1 undecodable_text_raises
           [("content", JList [JObj [("type", JStr "text"); ("text", JStr "{1: 2}")]])]
           [("type", JStr "text"); ("text", JStr "{1: 2}")]
           [] "{1: 2}"); reflexivity.
Defined.

(** C9.  A tool-call result without a [content] key, or whose [content] is
    the empty list, is returned as it is. *)
Theorem unwrap_without_content_is_identity (d : dict) :
  dict_get "content" d = None \/ dict_get "content" d = Some (JList []) ->
  unwrap_content (JObj d) = Return (JObj d).
Proof.
  intros [H | H]; unfold unwrap_content.
  - unfold has_content, py_contains, dict_mem. rewrite H. reflexivity.
  - rewrite (has_content_list d _ H). reflexivity.
Qed.

Lemma unwrap_without_content_is_identity_witness :
  (dict_get "content" [("isError", JBool true)] = None
   /\ unwrap_content (JObj [("isError", JBool true)]) =
        Return (JObj [("isError", JBool true)]))
  /\ (dict_get "content" [("content", JList []); ("isError", JBool false)] =
        Some (JList [])
      /\ unwrap_content (JObj [("content", JList []); ("isError", JBool false)]) =
           Return (JObj [("content", JList []); ("isError", JBool false)])).
Proof.
  split; (split; [reflexivity|]).
  - apply (unwrap_without_content_is_identity [("isError", JBool true)]).
    left. reflexivity.
  - apply (unwrap_without_content_is_identity
             [("content", JList []); ("isError", JBool false)]).
    right. reflexivity.
Defined.

(** C10.  When [content] is a non-empty list and its first item is a mapping
    without a [text] key, the subscript [["text"]] raises [KeyError]: the
    unwrapping does not return the result as it is, and the exception is not
    the decoding failure. *)
Theorem missing_text_raises_key_error (d fields : dict) (rest : list value) :
  dict_get "content" d = Some (JList (JObj fields :: rest)) ->
  dict_get "text" fields = None ->
  unwrap_content (JObj d) = Raise (KeyError (JStr "text"))
  /\ unwrap_content (JObj d) <> Return (JObj d)
  /\ is_payload_decode_error (KeyError (JStr "text")) = false.
Proof.
  intros Hc Ht.
  assert (H : unwrap_content (JObj d) = Raise (KeyError (JStr "text"))).
  { unfold unwrap_content. rewrite (has_content_list d _ Hc). cbn [obind].
    unfold py_getitem. rewrite Hc. cbn [obind py_getitem0]. rewrite Ht.
    reflexivity. }
  split; [exact H|]. split; [rewrite H; discriminate | reflexivity].
Qed.

Lemma missing_text_raises_key_error_witness :
  let fields := [("type", JStr "image"); ("data", JStr "AAAA")] in
  let d := [("content", JList [JObj fields])] in
  dict_get "content" d = Some (JList (JObj fields :: []))
  /\ dict_get "text" fields = None
  /\ unwrap_content (JObj d) = Raise (KeyError (JStr "text")).
Proof.
  cbv zeta. repeat (split; [reflexivity|]).
  apply (missing_text_raises_key_error
           [("content", JList [JObj [("type", JStr "image"); ("data", JStr "AAAA")]])]
           [("type", JStr "image"); ("data", JStr "AAAA")] []); reflexivity.
Defined.

(** ** The request on the wire *)

Lemma last_ids_after (n : nat) :
  last (ids_after 0 n) (Some 0) = Some (Z.of_nat n).
Proof.
  destruct n as [|n]; [reflexivity|].
  unfold ids_after. rewrite seq_S, map_app. cbn [map]. rewrite last_last.
  f_equal.
Qed.

(** C4.  On an instance that has made any calls before, [query] posts one
    request, with the arguments of the source: the endpoint, the headers of
    the instance, the timeout [60], and as body the object of [jsonrpc]
    ["2.0"], [id], [method] ["tools/call"] and [params] with [name] ["query"]
    and [arguments] holding the query text.  Its [id] is one more than the id
    of the request posted last ([0] standing for no request yet).  The query
    text of the specification, ["SELECT Id FROM Account LIMIT 1"], is one
    value of [soql]. *)
Theorem query_request_body
  {World : Type} (requests_post : World -> request -> World * (request_failure + response))
  (server_url sf_username sf_password sf_security_token sf_login_url : string)
  (secret_key : option string) (w : World) (cs : list call) (soql : string) :
  let me := __init__ server_url sf_username sf_password sf_security_token
              sf_login_url secret_key in
  let m := fst (perform_all requests_post cs (fresh me w)) in
  exists previous_id : Z,
    last (sent_ids (wire m)) (Some 0) = Some previous_id
    /\ wire (fst (query requests_post soql m)) =
         (wire m ++
            [{| req_url := mcp_endpoint (self m);
                req_headers := headers (self m);
                req_json :=
                  JObj [("jsonrpc", JStr "2.0");
                        ("id", JInt (previous_id + 1));
                        ("method", JStr "tools/call");
                        ("params",
                         JObj [("name", JStr "query");
                               ("arguments", JObj [("query", JStr soql)])])];
                req_timeout := 60 |}])%list.
Proof.
  cbv zeta.
  set (m := fst (perform_all requests_post cs _)).
  destruct (perform_all_ids requests_post cs
              (fresh (__init__ server_url sf_username sf_password sf_security_token
                        sf_login_url secret_key) w)) as [Hw Hid].
  fold m in Hw, Hid. cbn in Hw, Hid.
  exists (Z.of_nat (List.length cs)). split.
  - rewrite Hw. apply last_ids_after.
  - change (query requests_post soql m) with (perform requests_post (Query soql) m).
    rewrite perform_wire, Hid. reflexivity.
Qed.

(** The query of the specification, as the second call of an instance whose
    first call timed out: the body carries the id [2]. *)
Example query_after_timeout :
  let m1 := fst (initialize (failing_network RequestsTimeout) (fresh example_client tt)) in
  snd (initialize (failing_network RequestsTimeout) (fresh example_client tt)) =
    Raise (RequestException RequestsTimeout)
  /\ map req_json
       (wire (fst (query (failing_network RequestsTimeout)
                     "SELECT Id FROM Account LIMIT 1" m1))) =
     [JObj [("jsonrpc", JStr "2.0"); ("id", JInt 1); ("method", JStr "initialize");
            ("params", JObj [])];
      JObj [("jsonrpc", JStr "2.0"); ("id", JInt 2); ("method", JStr "tools/call");
            ("params",
             JObj [("name", JStr "query");
                   ("arguments", JObj [("query", JStr "SELECT Id FROM Account LIMIT 1")])])]].
Proof.
  split; reflexivity.
Qed.

(** ** Transport failures *)

Lemma resolve_never_transport (v : value) (e : py_exception) :
  resolve v = Raise e -> is_transport_error e = false.
Proof.
  unfold resolve. intros H.
  destruct v as [| b | n | l | s | items | d]; cbn in H;
    try (injection H as <-; reflexivity).
  - destruct (is_substring "error" s); cbn in H; injection H as <-; reflexivity.
  - destruct (existsb (is_JStr "error") items); cbn in H; injection H as <-; reflexivity.
  - unfold dict_mem in H. destruct (dict_get "error" d); cbn in H.
    + injection H as <-. reflexivity.
    + destruct (dict_get "result" d); discriminate.
Qed.

(** C8, as the specification states it, fails for the statuses outside
    200..299 that [raise_for_status] lets through: a response of status 300
    with the body [{}] is not 2xx, and the call returns the empty mapping. *)
Lemma status_300_is_not_surfaced :
  let r := {| status_code := 300; text := "{}" |} in
  (Z.leb 200 (status_code r) && Z.ltb (status_code r) 300)%bool = false
  /\ snd (_call_jsonrpc (constant_server r) "initialize" None (fresh example_client tt)) =
       Return (JObj []).
Proof.
  split; reflexivity.
Qed.

(** What [settle] makes of each answer of the network, case by case. *)
Lemma settle_cases (answer : request_failure + response) :
  match answer with
  | inl f => settle answer = Raise (RequestException f)
  | inr resp =>
      if (Z.leb 400 (status_code resp) && Z.ltb (status_code resp) 600)%bool
      then settle answer = Raise (HTTPError (status_code resp))
      else
        match json_loads (text resp) with
        | None => settle answer = Raise ResponseJSONDecodeError
        | Some (JObj d) =>
            match dict_get "error" d with
            | Some E => settle answer = Raise (PyException ("MCP Error: " ++ py_str E))
            | None =>
                settle answer =
                  Return (match dict_get "result" d with
                          | Some R => R
                          | None => JObj []
                          end)
            end
        | Some _ =>
            settle answer = Raise TypeError \/ settle answer = Raise AttributeError
        end
  end.
Proof.
  destruct answer as [f | resp]; cbn [settle]; [reflexivity|].
  unfold raise_for_status.
  destruct (Z.leb 400 (status_code resp) && Z.ltb (status_code resp) 600)%bool;
    cbn [obind]; [reflexivity|].
  unfold response_json. destruct (json_loads (text resp)) as [v|]; [|reflexivity].
  cbn [obind]. unfold resolve.
  destruct v as [| b | n | l | s | items | d]; cbn; try (left; reflexivity).
  - destruct (is_substring "error" s); cbn; [left | right]; reflexivity.
  - destruct (existsb (is_JStr "error") items); cbn; [left | right]; reflexivity.
  - unfold dict_mem. destruct (dict_get "error" d) as [E|]; cbn; [reflexivity|].
    destruct (dict_get "result" d); reflexivity.
Qed.

(** C8, amended.  Every call posts exactly one request, and its outcome is
    fixed by the one answer of the network.  A failure of [requests.post] is
    raised to the caller as it is, and a response of status 400 to 599
    raises [HTTPError]: these are the transport errors.  A response of any
    other status is decoded and resolved: a body that is not JSON raises the
    decoding error of [Response.json], a mapping with an [error] key raises
    the protocol error built from its payload, a mapping without one returns
    its [result] (or the empty mapping), and anything else raises
    [TypeError] or [AttributeError].  So a transport error is raised exactly
    when the post fails or the status is 400 to 599, and a protocol error
    exactly when a response of another status decodes to a mapping with an
    [error] key: the circumstances exclude each other. *)
Theorem transport_failure_is_distinct
  {World : Type} (requests_post : World -> request -> World * (request_failure + response))
  (method : string) (params : option dict) (m : machine) :
  let rq := jsonrpc_request (self m) (request_id (self m) + 1) method params in
  let answer := snd (requests_post (world m) rq) in
  let r := snd (_call_jsonrpc requests_post method params m) in
  wire (fst (_call_jsonrpc requests_post method params m)) = (wire m ++ [rq])%list
  /\ match answer with
     | inl f =>
         r = Raise (RequestException f)
         /\ is_transport_error (RequestException f) = true
     | inr resp =>
         if (Z.leb 400 (status_code resp) && Z.ltb (status_code resp) 600)%bool
         then r = Raise (HTTPError (status_code resp))
              /\ is_transport_error (HTTPError (status_code resp)) = true
         else
           match json_loads (text resp) with
           | None => r = Raise ResponseJSONDecodeError
           | Some (JObj d) =>
               match dict_get "error" d with
               | Some E => r = Raise (PyException ("MCP Error: " ++ py_str E))
               | None =>
                   r = Return (match dict_get "result" d with
                               | Some R => R
                               | None => JObj []
                               end)
               end
           | Some _ => r = Raise TypeError \/ r = Raise AttributeError
           end
     end
  /\ ((exists e, r = Raise e /\ is_transport_error e = true) <->
      match answer with
      | inl _ => True
      | inr resp =>
          (Z.leb 400 (status_code resp) && Z.ltb (status_code resp) 600)%bool = true
      end)
  /\ ((exists e, r = Raise e /\ is_protocol_error e = true) <->
      exists (resp : response) (d : dict) (E : value),
        answer = inr resp
        /\ (Z.leb 400 (status_code resp) && Z.ltb (status_code resp) 600)%bool = false
        /\ json_loads (text resp) = Some (JObj d)
        /\ dict_get "error" d = Some E).
Proof.
  cbv zeta. rewrite call_jsonrpc_eq. cbn [fst snd after_call wire].
  split; [reflexivity|].
  pose proof (settle_cases (snd (requests_post (world m)
    (jsonrpc_request (self m) (request_id (self m) + 1) method params)))) as H.
  destruct (snd (requests_post _ _)) as [f | resp].
  - rewrite H. split; [split; reflexivity|]. split; split.
    + intros _. exact I.
    + intros _. exists (RequestException f). split; reflexivity.
    + intros (e & He & Hp). injection He as <-. discriminate Hp.
    + intros (resp & d & E & Ha & _). discriminate Ha.
  - destruct (Z.leb 400 (status_code resp) && Z.ltb (status_code resp) 600)%bool
      eqn:Hs.
    + rewrite H. split; [split; reflexivity|]. split; split.
      * intros _. reflexivity.
      * intros _. exists (HTTPError (status_code resp)). split; reflexivity.
      * intros (e & He & Hp). injection He as <-. discriminate Hp.
      * intros (resp' & d & E & Ha & Hs' & _). injection Ha as <-.
        rewrite Hs in Hs'. discriminate Hs'.
    + destruct (json_loads (text resp)) as [v|] eqn:Hj.
      * assert (Hobj : forall d, v = JObj d ->
                  match dict_get "error" d with
                  | Some E =>
                      settle (inr resp) = Raise (PyException ("MCP Error: " ++ py_str E))
                  | None =>
                      settle (inr resp) =
                        Return (match dict_get "result" d with
                                | Some R => R
                                | None => JObj []
                                end)
                  end) by (intros d ->; exact H).
        assert (Hnt : ~ exists e, settle (inr resp) = Raise e
                                  /\ is_transport_error e = true).
        { intros (e & He & Ht).
          destruct v as [| b | n | l | s | items | d];
            try (destruct H as [H|H]; rewrite H in He; injection He as <-;
                 discriminate Ht).
          destruct (dict_get "error" d); rewrite H in He;
            [injection He as <-; discriminate Ht | discriminate He]. }
        split; [exact H|]. split; split.
        -- intros Hex. now destruct (Hnt Hex).
        -- intros Hf. discriminate Hf.
        -- intros (e & He & Hp).
           destruct v as [| b | n | l | s | items | d];
             try (destruct H as [H|H]; rewrite H in He; injection He as <-;
                  discriminate Hp).
           destruct (dict_get "error" d) as [E|] eqn:HE; rewrite H in He;
             [|discriminate He].
           exists resp, d, E. repeat split; assumption.
        -- intros (resp' & d & E & Ha & _ & Hj' & HE). injection Ha as <-.
           rewrite Hj in Hj'. injection Hj' as ->.
           specialize (Hobj d eq_refl). rewrite HE in Hobj.
           exists (PyException ("MCP Error: " ++ py_str E)). split; [exact Hobj | reflexivity].
      * rewrite H. split; [reflexivity|]. split; split.
        -- intros (e & He & Ht). injection He as <-. discriminate Ht.
        -- intros Hf. discriminate Hf.
        -- intros (e & He & Hp). injection He as <-. discriminate Hp.
        -- intros (resp' & d & E & Ha & _ & Hj' & _). injection Ha as <-.
           rewrite Hj in Hj'. discriminate Hj'.
Qed.


(** * Further properties of the client *)

(** ** Construction *)

Lemma string_of_list_app (l1 l2 : list ascii) :
  string_of_list_ascii (l1 ++ l2) = string_of_list_ascii l1 ++ string_of_list_ascii l2.
Proof.
  induction l1 as [|c l1 IH]; cbn; [reflexivity | now rewrite IH].
Qed.

Lemma string_rev_involutive (s : string) : string_rev (string_rev s) = s.
Proof.
  unfold string_rev.
  now rewrite list_ascii_of_string_of_list_ascii, rev_involutive,
    string_of_list_ascii_of_string.
Qed.

Lemma lstrip_slash_split (t : string) :
  exists k, t = slashes k ++ lstrip_slash t.
Proof.
  induction t as [|c t [k IH]]; [now exists 0%nat|].
  cbn [lstrip_slash]. destruct (Ascii.eqb c "/") eqn:E.
  - apply Ascii.eqb_eq in E. subst c. exists (S k).
    change (slashes (S k)) with (String "/" (slashes k)).
    cbn [append]. f_equal. exact IH.
  - now exists 0%nat.
Qed.

Lemma lstrip_slash_head (t : string) (c : ascii) (r : string) :
  lstrip_slash t = String c r -> c <> "/"%char.
Proof.
  induction t as [|c0 t IH]; cbn [lstrip_slash]; [discriminate|].
  destruct (Ascii.eqb c0 "/") eqn:E; [exact IH|].
  intros H. injection H as <- _. now apply Ascii.eqb_neq.
Qed.

Lemma string_rev_slashes (k : nat) : string_rev (slashes k) = slashes k.
Proof.
  unfold string_rev, slashes. rewrite list_ascii_of_string_of_list_ascii.
  f_equal. induction k as [|k IH]; [reflexivity|].
  cbn [repeat rev]. rewrite IH. clear IH.
  induction k as [|k IH]; [reflexivity|]. cbn [repeat app]. now rewrite IH.
Qed.

Lemma list_of_string_app (a b : string) :
  list_ascii_of_string (a ++ b) = (list_ascii_of_string a ++ list_ascii_of_string b)%list.
Proof.
  induction a as [|c a IH]; cbn; [reflexivity | now rewrite IH].
Qed.

Lemma string_rev_app (a b : string) :
  string_rev (a ++ b) = string_rev b ++ string_rev a.
Proof.
  unfold string_rev. now rewrite list_of_string_app, rev_app_distr, string_of_list_app.
Qed.

(** X1.  The constructor removes the slashes at the end of the URL and only
    them: the URL given is the stored one followed by slashes, the stored one
    does not end with a slash, and the endpoint is the stored URL followed by
    [/mcp]. *)
Theorem init_strips_trailing_slashes
  (url sf_username sf_password sf_security_token sf_login_url : string)
  (secret_key : option string) :
  let me := __init__ url sf_username sf_password sf_security_token
              sf_login_url secret_key in
  (exists k, url = server_url me ++ slashes k)
  /\ (forall u, server_url me <> u ++ "/")
  /\ mcp_endpoint me = server_url me ++ "/mcp".
Proof.
  cbv zeta. cbn [__init__ server_url mcp_endpoint]. unfold rstrip_slash.
  split; [|split; [|reflexivity]].
  - destruct (lstrip_slash_split (string_rev url)) as [k Hk].
    exists k. rewrite <- (string_rev_involutive url) at 1.
    rewrite Hk at 1. now rewrite string_rev_app, string_rev_slashes.
  - intros u H.
    assert (H' : lstrip_slash (string_rev url) = string_rev (u ++ "/")).
    { now rewrite <- H, string_rev_involutive. }
    rewrite string_rev_app in H'. cbn in H'.
    now apply lstrip_slash_head in H'.
Qed.

(** X2.  The headers of a new instance are the content type and the four
    credentials under their fixed names, followed by [x-secret-key] exactly
    when a secret key that is not empty is given. *)
Theorem init_headers
  (url sf_username sf_password sf_security_token sf_login_url : string)
  (secret_key : option string) :
  let me := __init__ url sf_username sf_password sf_security_token
              sf_login_url secret_key in
  firstn 5 (headers me) =
    [("Content-Type", "application/json");
     ("x-sf-username", sf_username);
     ("x-sf-password", sf_password);
     ("x-sf-security-token", sf_security_token);
     ("x-sf-login-url", sf_login_url)]
  /\ (forall k, In ("x-secret-key", k) (headers me)
                <-> secret_key = Some k /\ k <> "")
  /\ skipn 5 (headers me) =
       match secret_key with
       | Some (String c k) => [("x-secret-key", String c k)]
       | _ => []
       end.
Proof.
  cbv zeta. cbn [__init__ headers].
  destruct secret_key as [[|c k0]|]; cbn [truthy app firstn skipn];
    (split; [reflexivity|]); (split; [|reflexivity]);
    intros k; cbn [In]; split.
  - intros H. repeat (destruct H as [H|H]; [discriminate H|]). destruct H.
  - intros [H Hk]. injection H as <-. now destruct Hk.
  - intros H. repeat (destruct H as [H|H]; [try discriminate H|]); [|destruct H].
    injection H as <-. split; [reflexivity | discriminate].
  - intros [H _]. injection H as <-. do 5 right. now left.
  - intros H. repeat (destruct H as [H|H]; [discriminate H|]). destruct H.
  - intros [H _]. discriminate.
Qed.

(** ** Sequences of calls *)

Section SequenceFacts.

Context {World : Type}.
Variable requests_post : World -> request -> World * (request_failure + response).

Lemma perform_self (c : call) (m : machine) :
  self (fst (perform requests_post c m)) =
    set_request_id (self m) (request_id (self m) + 1).
Proof.
  rewrite perform_machine, call_jsonrpc_eq. reflexivity.
Qed.

Lemma requests_of_set_id (me : client) (n k : Z) (cs : list call) :
  requests_of (set_request_id me n) k cs = requests_of me k cs.
Proof.
  revert k. induction cs as [|c cs IH]; intros k; cbn [requests_of];
    [reflexivity | now rewrite IH].
Qed.

(** The wire and the client after a sequence of calls. *)
Lemma perform_all_wire (cs : list call) (m : machine) :
  wire (fst (perform_all requests_post cs m)) =
    (wire m ++ requests_of (self m) (request_id (self m)) cs)%list
  /\ self (fst (perform_all requests_post cs m)) =
       set_request_id (self m) (request_id (self m) + Z.of_nat (List.length cs)).
Proof.
  revert m. induction cs as [|c cs IH]; intros m.
  - cbn. rewrite app_nil_r, Z.add_0_r. split; [reflexivity | now destruct (self m)].
  - cbn [perform_all].
    destruct (perform requests_post c m) as [m1 r] eqn:E1.
    destruct (perform_all requests_post cs m1) as [m2 rs] eqn:E2.
    assert (Hm1 : m1 = fst (perform requests_post c m)) by now rewrite E1.
    assert (Hm2 : m2 = fst (perform_all requests_post cs m1)) by now rewrite E2.
    destruct (IH m1) as [IHw IHs]. rewrite <- Hm2 in IHw, IHs.
    cbn [fst]. rewrite IHw, IHs, Hm1, perform_wire, perform_self.
    cbn [request_id set_request_id requests_of List.length].
    rewrite requests_of_set_id, <- app_assoc. cbn [app].
    split; [reflexivity|]. unfold set_request_id. cbn. f_equal. lia.
Qed.

Lemma perform_all_app (cs1 cs2 : list call) (m : machine) :
  fst (perform_all requests_post (cs1 ++ cs2) m) =
    fst (perform_all requests_post cs2 (fst (perform_all requests_post cs1 m))).
Proof.
  revert m. induction cs1 as [|c cs1 IH]; intros m; [reflexivity|].
  cbn [app perform_all].
  destruct (perform requests_post c m) as [m1 r].
  specialize (IH m1).
  destruct (perform_all requests_post (cs1 ++ cs2) m1) as [m2 rs].
  destruct (perform_all requests_post cs1 m1) as [m3 rs3].
  cbn [fst] in *. exact IH.
Qed.

Lemma requests_of_length (me : client) (k : Z) (cs : list call) :
  List.length (requests_of me k cs) = List.length cs.
Proof.
  revert k. induction cs as [|c cs IH]; intros k; cbn; [reflexivity | now rewrite IH].
Qed.

Lemma requests_of_uniform (me : client) (k : Z) (cs : list call) :
  Forall (fun rq => req_url rq = mcp_endpoint me
                    /\ req_headers rq = headers me
                    /\ req_timeout rq = 60)
    (requests_of me k cs).
Proof.
  revert k. induction cs as [|c cs IH]; intros k; cbn [requests_of]; constructor;
    [repeat split | apply IH].
Qed.

End SequenceFacts.

(** X3.  On an instance used from its construction on, the counter
    [request_id] is the number of requests posted so far: an id is taken
    only to be posted, and every post takes one. *)
Theorem counter_counts_requests
  {World : Type} (requests_post : World -> request -> World * (request_failure + response))
  (me : client) (w : World) (cs : list call) :
  let m := fst (perform_all requests_post cs
                  (fresh (set_request_id me 0) w)) in
  request_id (self m) = Z.of_nat (List.length (wire m))
  /\ List.length (wire m) = List.length cs.
Proof.
  cbv zeta.
  destruct (perform_all_wire requests_post cs (fresh (set_request_id me 0) w))
    as [Hw Hs].
  rewrite Hw, Hs. cbn [fresh wire self request_id set_request_id app].
  rewrite requests_of_length. split; [lia | reflexivity].
Qed.

(** X4.  Whatever happens to the calls, an instance keeps its URL, its
    endpoint and its headers, and every request it posts goes to that
    endpoint with those headers and the timeout [60]. *)
Theorem requests_are_uniform
  {World : Type} (requests_post : World -> request -> World * (request_failure + response))
  (me : client) (w : World) (cs : list call) :
  let m := fst (perform_all requests_post cs (fresh me w)) in
  server_url (self m) = server_url me
  /\ mcp_endpoint (self m) = mcp_endpoint me
  /\ headers (self m) = headers me
  /\ Forall (fun rq => req_url rq = mcp_endpoint me
                       /\ req_headers rq = headers me
                       /\ req_timeout rq = 60)
       (wire m).
Proof.
  cbv zeta.
  destruct (perform_all_wire requests_post cs (fresh me w)) as [Hw Hs].
  rewrite Hw, Hs. cbn [fresh wire self app set_request_id server_url mcp_endpoint headers].
  repeat split; try reflexivity. apply requests_of_uniform.
Qed.

(** ** Edge cases of one call *)

(** X5.  A response whose status is not an error status and whose body is
    not JSON (an empty body, a page of HTML) makes the call raise the
    decoding error of [Response.json]; the id of the call is used up. *)
Theorem undecodable_body_raises
  {World : Type} (requests_post : World -> request -> World * (request_failure + response))
  (method : string) (params : option dict) (m : machine) (resp : response) :
  snd (requests_post (world m)
         (jsonrpc_request (self m) (request_id (self m) + 1) method params)) = inr resp ->
  raise_for_status resp = Return tt ->
  json_loads (text resp) = None ->
  snd (_call_jsonrpc requests_post method params m) = Raise ResponseJSONDecodeError
  /\ request_id (self (fst (_call_jsonrpc requests_post method params m))) =
       request_id (self m) + 1.
Proof.
  intros Ha Hs Hj. rewrite call_jsonrpc_eq. cbn [fst snd after_call self request_id
    set_request_id]. rewrite Ha. cbn [settle]. rewrite Hs. cbn [obind].
  unfold response_json. rewrite Hj. split; reflexivity.
Qed.

Lemma undecodable_body_raises_witness :
  snd (_call_jsonrpc (constant_server {| status_code := 204; text := "" |})
         "tools/list" None (fresh example_client tt)) = Raise ResponseJSONDecodeError
  /\ request_id (self (fst (_call_jsonrpc
                              (constant_server {| status_code := 204; text := "" |})
                              "tools/list" None (fresh example_client tt)))) = 0 + 1.
Proof.
  apply (undecodable_body_raises (constant_server {| status_code := 204; text := "" |})
           "tools/list" None (fresh example_client tt)
           {| status_code := 204; text := "" |}); reflexivity.
Defined.

(** X6.  A decoded response that is not a mapping never resolves to a
    value: the membership test or the call of [get] raises [TypeError] or
    [AttributeError]. *)
Theorem non_mapping_response_raises (v : value) :
  (forall d, v <> JObj d) ->
  exists e, resolve v = Raise e /\ (e = TypeError \/ e = AttributeError).
Proof.
  intros H. unfold resolve.
  destruct v as [| b | n | l | s | items | d]; cbn;
    try (exists TypeError; split; [reflexivity | now left]).
  - destruct (is_substring "error" s); cbn;
      [exists TypeError | exists AttributeError]; split; auto.
  - destruct (existsb (is_JStr "error") items); cbn;
      [exists TypeError | exists AttributeError]; split; auto.
  - now destruct (H d).
Qed.

Lemma non_mapping_response_raises_witness :
  (forall d, JList [JInt 1; JStr "error"] <> JObj d)
  /\ exists e, resolve (JList [JInt 1; JStr "error"]) = Raise e
               /\ (e = TypeError \/ e = AttributeError).
Proof.
  split; [discriminate|].
  apply (non_mapping_response_raises (JList [JInt 1; JStr "error"])). discriminate.
Defined.

(** X7.  Without an [error] key, the value under [result] is returned as it
    is, whatever it is: a [null] result gives [None], not the empty
    mapping. *)
Theorem result_is_returned_unchanged (d : dict) (R : value) :
  dict_get "error" d = None ->
  dict_get "result" d = Some R ->
  resolve (JObj d) = Return R.
Proof.
  intros He Hr. unfold resolve, py_contains, py_get, dict_mem.
  rewrite He. cbn [obind]. rewrite Hr. reflexivity.
Qed.

Lemma result_is_returned_unchanged_witness :
  dict_get "error" [("jsonrpc", JStr "2.0"); ("id", JInt 1); ("result", JNull)] = None
  /\ dict_get "result" [("jsonrpc", JStr "2.0"); ("id", JInt 1); ("result", JNull)] =
       Some JNull
  /\ resolve (JObj [("jsonrpc", JStr "2.0"); ("id", JInt 1); ("result", JNull)]) =
       Return JNull.
Proof.
  repeat (split; [reflexivity|]).
  apply (result_is_returned_unchanged
           [("jsonrpc", JStr "2.0"); ("id", JInt 1); ("result", JNull)] JNull);
    reflexivity.
Defined.

(** X8.  The resolution reads the keys [error] and [result] and nothing
    else: two mappings that agree on them resolve alike.  In particular the
    [id] echoed by the server is not compared with the id sent. *)
Theorem resolve_reads_error_and_result_only (d d' : dict) :
  dict_get "error" d = dict_get "error" d' ->
  dict_get "result" d = dict_get "result" d' ->
  resolve (JObj d) = resolve (JObj d').
Proof.
  intros He Hr. unfold resolve, py_contains, py_getitem, py_get, dict_mem.
  rewrite He, Hr. reflexivity.
Qed.

Lemma resolve_reads_error_and_result_only_witness :
  let d := [("jsonrpc", JStr "2.0"); ("id", JInt 7); ("result", JStr "ok")] in
  let d' := [("id", JInt 999); ("result", JStr "ok")] in
  dict_get "error" d = dict_get "error" d'
  /\ dict_get "result" d = dict_get "result" d'
  /\ resolve (JObj d) = resolve (JObj d').
Proof.
  cbv zeta. repeat (split; [reflexivity|]).
  apply (resolve_reads_error_and_result_only
           [("jsonrpc", JStr "2.0"); ("id", JInt 7); ("result", JStr "ok")]
           [("id", JInt 999); ("result", JStr "ok")]); reflexivity.
Defined.

(** ** The operations *)

(** X9.  The request bodies of the operations other than [query]:
    [initialize] and [list_tools] send their method with empty parameters,
    and [tooling_query], [describe_object] and [retrieve_metadata] send
    [tools/call] with their tool name and their arguments. *)
Theorem operation_request_bodies
  {World : Type} (requests_post : World -> request -> World * (request_failure + response))
  (m : machine) :
  let body (method : string) (params : dict) :=
    JObj [("jsonrpc", JStr "2.0"); ("id", JInt (request_id (self m) + 1));
          ("method", JStr method); ("params", JObj params)] in
  let tool (name : string) (arguments : dict) :=
    body "tools/call" [("name", JStr name); ("arguments", JObj arguments)] in
  map req_json (wire (fst (initialize requests_post m))) =
    (map req_json (wire m) ++ [body "initialize" []])%list
  /\ map req_json (wire (fst (list_tools requests_post m))) =
       (map req_json (wire m) ++ [body "tools/list" []])%list
  /\ (forall q,
        map req_json (wire (fst (tooling_query requests_post q m))) =
          (map req_json (wire m) ++ [tool "tooling-query" [("query", JStr q)]])%list)
  /\ (forall object_name detailed,
        map req_json (wire (fst (describe_object requests_post object_name detailed m))) =
          (map req_json (wire m)
             ++ [tool "describe-object"
                   [("objectName", JStr object_name); ("detailed", JBool detailed)]])%list)
  /\ (forall metadata_type full_names,
        map req_json
          (wire (fst (retrieve_metadata requests_post metadata_type full_names m))) =
          (map req_json (wire m)
             ++ [tool "metadata-retrieve"
                   [("type", JStr metadata_type); ("fullNames", JList full_names)]])%list).
Proof.
  cbv zeta. repeat split; intros.
  - change (initialize requests_post m) with (perform requests_post Initialize m).
    rewrite perform_wire, map_app. reflexivity.
  - change (list_tools requests_post m) with (perform requests_post ListTools m).
    rewrite perform_wire, map_app. reflexivity.
  - change (tooling_query requests_post q m)
      with (perform requests_post (ToolingQuery q) m).
    rewrite perform_wire, map_app. reflexivity.
  - change (describe_object requests_post object_name detailed m)
      with (perform requests_post (DescribeObject object_name detailed) m).
    rewrite perform_wire, map_app. reflexivity.
  - change (retrieve_metadata requests_post metadata_type full_names m)
      with (perform requests_post (RetrieveMetadata metadata_type full_names) m).
    rewrite perform_wire, map_app. reflexivity.
Qed.

(** X10.  The whole pipeline on a well-formed exchange.  When the network
    delivers a response whose status is not an error status and whose body
    decodes to a mapping without [error], with under [result] a tool-call
    result whose first content item has the text [s], and [s] decodes to [v]:
    the four convenience methods return [v], and [call_tool] returns the
    tool-call result itself. *)
Theorem pipeline_on_well_formed_exchange
  {World : Type} (requests_post : World -> request -> World * (request_failure + response))
  (c : call) (m : machine) (resp : response) (d r fields : dict)
  (rest : list value) (s : string) (v : value) :
  snd (requests_post (world m)
         (jsonrpc_request (self m) (request_id (self m) + 1)
            (fst (rpc_of c)) (snd (rpc_of c)))) = inr resp ->
  raise_for_status resp = Return tt ->
  json_loads (text resp) = Some (JObj d) ->
  dict_get "error" d = None ->
  dict_get "result" d = Some (JObj r) ->
  dict_get "content" r = Some (JList (JObj fields :: rest)) ->
  dict_get "text" fields = Some (JStr s) ->
  json_loads s = Some v ->
  snd (perform requests_post c m) = if unwraps c then Return v else Return (JObj r).
Proof.
  intros Ha Hs Hj He Hr Hc Ht Hv.
  assert (Hcall : snd (_call_jsonrpc requests_post (fst (rpc_of c)) (snd (rpc_of c)) m)
                  = Return (JObj r)).
  { rewrite call_jsonrpc_eq. cbn [snd]. rewrite Ha. cbn [settle]. rewrite Hs.
    cbn [obind]. unfold response_json. rewrite Hj. cbn [obind].
    unfold resolve, py_contains, py_get, dict_mem. rewrite He. cbn [obind].
    now rewrite Hr. }
  assert (Hu : unwrap_content (JObj r) = Return v).
  { unfold unwrap_content. rewrite (has_content_list r _ Hc). cbn [obind].
    unfold py_getitem. rewrite Hc. cbn [obind py_getitem0]. rewrite Ht.
    cbn [obind py_json_loads]. now rewrite Hv. }
  rewrite perform_outcome. cbv zeta. rewrite Hcall.
  destruct c; cbn [unwraps obind]; first [exact Hu | reflexivity].
Qed.

Lemma pipeline_on_well_formed_exchange_witness :
  snd (perform scripted_server (Query accounts_soql)
         (fresh example_client [example_tool_response])) =
    Return (JObj [("totalSize", JInt 1)])
  /\ snd (perform scripted_server (CallTool "query" [("query", JStr accounts_soql)])
            (fresh example_client [example_tool_response])) =
       Return (JObj [("content",
                      JList [JObj [("type", JStr "text");
                                   ("text", JStr ("{" ++ dq ++ "totalSize" ++ dq ++ ": 1}"))]])]).
Proof.
  split.
  - apply (pipeline_on_well_formed_exchange scripted_server (Query accounts_soql)
             (fresh example_client [example_tool_response])
             {| status_code := 200; text := example_tool_response |}
             [("result",
               JObj [("content",
                      JList [JObj [("type", JStr "text");
                                   ("text", JStr ("{" ++ dq ++ "totalSize" ++ dq ++ ": 1}"))]])])]
             [("content",
               JList [JObj [("type", JStr "text");
                            ("text", JStr ("{" ++ dq ++ "totalSize" ++ dq ++ ": 1}"))]])]
             [("type", JStr "text");
              ("text", JStr ("{" ++ dq ++ "totalSize" ++ dq ++ ": 1}"))]
             [] ("{" ++ dq ++ "totalSize" ++ dq ++ ": 1}")
             (JObj [("totalSize", JInt 1)])); reflexivity.
  - apply (pipeline_on_well_formed_exchange scripted_server
             (CallTool "query" [("query", JStr accounts_soql)])
             (fresh example_client [example_tool_response])
             {| status_code := 200; text := example_tool_response |}
             [("result",
               JObj [("content",
                      JList [JObj [("type", JStr "text");
                                   ("text", JStr ("{" ++ dq ++ "totalSize" ++ dq ++ ": 1}"))]])])]
             [("content",
               JList [JObj [("type", JStr "text");
                            ("text", JStr ("{" ++ dq ++ "totalSize" ++ dq ++ ": 1}"))]])]
             [("type", JStr "text");
              ("text", JStr ("{" ++ dq ++ "totalSize" ++ dq ++ ": 1}"))]
             [] ("{" ++ dq ++ "totalSize" ++ dq ++ ": 1}")
             (JObj [("totalSize", JInt 1)])); reflexivity.
Defined.

(** X11.  A tool-call result that is [null], a boolean or a number makes
    the unwrapping raise [TypeError]: the test ["content" in result] is not
    defined on it. *)
Theorem unwrap_of_scalar_raises (v : value) :
  is_container v = false ->
  unwrap_content v = Raise TypeError.
Proof.
  destruct v; cbn [is_container]; intros H; try discriminate H; reflexivity.
Qed.

Lemma unwrap_of_scalar_raises_witness :
  is_container JNull = false /\ unwrap_content JNull = Raise TypeError.
Proof.
  split; [reflexivity|]. apply (unwrap_of_scalar_raises JNull). reflexivity.
Defined.

(** X12.  When [content] is a non-empty list whose first item is a mapping
    with a [text] key, the outcome of the unwrapping is that of [json.loads]
    on that text and depends on nothing else: the other items and the other
    keys are not read, and a text that is not a string raises
    [TypeError]. *)
Theorem unwrap_reads_first_text_only (d fields : dict) (rest : list value) (t : value) :
  dict_get "content" d = Some (JList (JObj fields :: rest)) ->
  dict_get "text" fields = Some t ->
  unwrap_content (JObj d) = py_json_loads t
  /\ ((forall s, t <> JStr s) -> unwrap_content (JObj d) = Raise TypeError).
Proof.
  intros Hc Ht.
  assert (H : unwrap_content (JObj d) = py_json_loads t).
  { unfold unwrap_content. rewrite (has_content_list d _ Hc). cbn [obind].
    unfold py_getitem. rewrite Hc. cbn [obind py_getitem0]. rewrite Ht.
    reflexivity. }
  split; [exact H|]. intros Hn. rewrite H.
  destruct t; try reflexivity. now destruct (Hn s).
Qed.

Lemma unwrap_reads_first_text_only_witness :
  let fields := [("type", JStr "text"); ("text", JInt 5)] in
  let d := [("content", JList [JObj fields; JObj [("text", JStr "{}")]])] in
  dict_get "content" d = Some (JList (JObj fields :: [JObj [("text", JStr "{}")]]))
  /\ dict_get "text" fields = Some (JInt 5)
  /\ unwrap_content (JObj d) = Raise TypeError.
Proof.
  cbv zeta. repeat (split; [reflexivity|]).
  apply (unwrap_reads_first_text_only
           [("content", JList [JObj [("type", JStr "text"); ("text", JInt 5)];
                               JObj [("text", JStr "{}")]])]
           [("type", JStr "text"); ("text", JInt 5)]
           [JObj [("text", JStr "{}")]] (JInt 5));
    [reflexivity | reflexivity | discriminate].
Defined.

(** X13.  When [content] is present and is not a list, nothing is decoded:
    the result comes back as it is (an empty string or mapping has length
    zero) or the unwrapping raises [TypeError] or [KeyError(0)]. *)
Theorem unwrap_of_content_not_a_list (d : dict) (c : value) :
  dict_get "content" d = Some c ->
  (forall items, c <> JList items) ->
  unwrap_content (JObj d) = Return (JObj d)
  \/ unwrap_content (JObj d) = Raise TypeError
  \/ unwrap_content (JObj d) = Raise (KeyError (JInt 0)).
Proof.
  intros Hc Hn. unfold unwrap_content, has_content, py_contains, py_getitem, dict_mem.
  rewrite Hc. cbn [obind].
  destruct c as [| b | n | l | s | items | fields]; cbn [py_len obind];
    try (right; left; reflexivity).
  - destruct (Z.ltb 0 (utf8_len s)) eqn:E; [|now left].
    right; left. destruct s as [|a s]; [discriminate E|]. reflexivity.
  - now destruct (Hn items).
  - destruct fields as [|kv fields]; [now left|].
    right; right. reflexivity.
Qed.

Lemma unwrap_of_content_not_a_list_witness :
  dict_get "content" [("content", JObj [("text", JStr "{}")])] =
    Some (JObj [("text", JStr "{}")])
  /\ (forall items, JObj [("text", JStr "{}")] <> JList items)
  /\ (unwrap_content (JObj [("content", JObj [("text", JStr "{}")])]) =
        Return (JObj [("content", JObj [("text", JStr "{}")])])
      \/ unwrap_content (JObj [("content", JObj [("text", JStr "{}")])]) = Raise TypeError
      \/ unwrap_content (JObj [("content", JObj [("text", JStr "{}")])]) =
           Raise (KeyError (JInt 0))).
Proof.
  split; [reflexivity|]. split; [discriminate|].
  apply (unwrap_of_content_not_a_list
           [("content", JObj [("text", JStr "{}")])] (JObj [("text", JStr "{}")]));
    [reflexivity | discriminate].
Defined.

(** ** The loops of [main] *)





(** X15.  The list of tool names is built when and only when every tool is
    a mapping with a [name] key, and then holds the names in the order of the
    tools. *)
Theorem tool_names_spec (tools ns : list value) :
  tool_names tools = Return ns <->
  Forall2 (fun tool n => exists d, tool = JObj d /\ dict_get "name" d = Some n) tools ns.
Proof.
  revert ns. induction tools as [|tool tools IH]; intros ns; cbn [tool_names].
  - split.
    + intros H. injection H as <-. constructor.
    + intros H. inversion H. reflexivity.
  - split.
    + intros H. destruct tool as [| b | n | l | s | items | d]; try discriminate H.
      cbn [py_getitem] in H. destruct (dict_get "name" d) as [n|] eqn:Hn;
        [|discriminate H]. cbn [obind] in H.
      destruct (tool_names tools) as [ns'|e] eqn:Ht; [|discriminate H].
      cbn [obind] in H. injection H as <-. constructor.
      * now exists d.
      * now apply IH.
    + intros H. inversion H as [|t n ts ns' (d & -> & Hd) Hrest]; subst.
      cbn [py_getitem]. rewrite Hd. cbn [obind].
      apply IH in Hrest. rewrite Hrest. reflexivity.
Qed.

(** ** The function [main] *)

Section MainFacts.

Context {World : Type}.
Variable requests_post : World -> request -> World * (request_failure + response).

Lemma pbind_print {B} (text : string) (k : unit -> @P World B) (m : machine)
  (out : list string) :
  encodable text = true ->
  pbind (print text) k m out = k tt m (out ++ split_lines text)%list.
Proof.
  intros H. unfold pbind, print. rewrite H. reflexivity.
Qed.

(** *** The calls of a program *)

Lemma posts_print (text : string) : posts requests_post (print text) [].
Proof.
  intros m out. exists 0%nat. split; [cbn; lia|]. unfold print.
  destruct (encodable text); (split; [reflexivity|]); intros a _; reflexivity.
Qed.

Lemma posts_expr {A} (r : outcome A) : posts requests_post (expr r) [].
Proof.
  intros m out. exists 0%nat. split; [cbn; lia|]. split; [reflexivity|].
  intros a _. reflexivity.
Qed.

Lemma posts_quiet_bind {A B} (c : @P World A) (k : A -> @P World B) (cs : list call) :
  posts requests_post c [] ->
  (forall a, posts requests_post (k a) cs) ->
  posts requests_post (pbind c k) cs.
Proof.
  intros Hc Hk m out. destruct (Hc m out) as (n0 & Hn0 & Hm & _).
  assert (n0 = 0%nat) by (cbn in Hn0; lia). subst n0. cbn in Hm.
  unfold pbind. destruct (c m out) as [[m' out'] [a|e]]; cbn [fst snd] in *; subst m'.
  - apply Hk.
  - exists 0%nat. split; [lia|]. split; [reflexivity|]. intros a H. discriminate H.
Qed.

Lemma posts_call_bind {B} (c0 : call) (k : value -> @P World B) (cs : list call) :
  (forall a, posts requests_post (k a) cs) ->
  forall m out,
  exists n : nat,
    (1 <= n <= S (List.length cs))%nat
    /\ fst (fst (pbind (method (perform requests_post c0)) k m out)) =
         fst (perform_all requests_post (firstn n (c0 :: cs)) m)
    /\ (forall b, snd (pbind (method (perform requests_post c0)) k m out) = Return b ->
        n = S (List.length cs)).
Proof.
  intros Hk m out. unfold pbind, method.
  destruct (perform requests_post c0 m) as [m1 [a|e]] eqn:E.
  - destruct (Hk a m1 out) as (n & Hn & Hm & Hr).
    exists (S n). split; [lia|]. cbn [firstn perform_all]. rewrite E.
    destruct (perform_all requests_post (firstn n cs) m1) as [m2 rs].
    cbn [fst] in *. split; [exact Hm|]. intros b Hb. f_equal. now apply (Hr b).
  - exists 1%nat. split; [lia|]. cbn [firstn perform_all]. rewrite E.
    cbn [fst snd]. split; [reflexivity|]. intros b Hb. discriminate Hb.
Qed.

Lemma posts_call {B} (c0 : call) (k : value -> @P World B) (cs : list call) :
  (forall a, posts requests_post (k a) cs) ->
  posts requests_post (pbind (method (perform requests_post c0)) k) (c0 :: cs).
Proof.
  intros Hk m out. destruct (posts_call_bind c0 k cs Hk m out) as (n & Hn & H).
  exists n. split; [cbn; lia | exact H].
Qed.

Lemma posts_print_records (records : list value) :
  posts requests_post (print_records records) [].
Proof.
  induction records as [|r records IH]; cbn [print_records].
  - apply posts_expr.
  - apply posts_quiet_bind; [apply posts_expr | intros line].
    apply posts_quiet_bind; [apply posts_print | intros _]. exact IH.
Qed.

(** *** The output of a program *)

Lemma writes_print (text : string) : writes (@print World text).
Proof.
  intros m out. unfold print. destruct (encodable text).
  - now exists (split_lines text).
  - exists []. cbn. now rewrite app_nil_r.
Qed.

Lemma writes_expr {A} (r : outcome A) : writes (@expr World A r).
Proof.
  intros m out. exists []. cbn. now rewrite app_nil_r.
Qed.

Lemma writes_method {A} (c : @M World A) : writes (method c).
Proof.
  intros m out. exists []. unfold method. destruct (c m). cbn. now rewrite app_nil_r.
Qed.

Lemma writes_bind {A B} (c : @P World A) (k : A -> @P World B) :
  writes c -> (forall a, writes (k a)) -> writes (pbind c k).
Proof.
  intros Hc Hk m out. destruct (Hc m out) as (l1 & H1). unfold pbind.
  destruct (c m out) as [[m' out'] [a|e]]; cbn [fst snd] in *; subst out'.
  - destruct (Hk a m' (out ++ l1)%list) as (l2 & H2).
    exists (l1 ++ l2)%list. now rewrite H2, app_assoc.
  - now exists l1.
Qed.

Lemma writes_print_records (records : list value) :
  writes (@print_records World records).
Proof.
  induction records as [|r records IH]; cbn [print_records].
  - apply writes_expr.
  - apply writes_bind; [apply writes_expr | intros line].
    apply writes_bind; [apply writes_print | intros _]. exact IH.
Qed.

Lemma ends_with_print (last : string) :
  split_lines last = [last] -> ends_with last (@print World last).
Proof.
  intros H m out. exists []. unfold print. rewrite H.
  destruct (encodable last); cbn [fst snd app]; [reflexivity | now rewrite app_nil_r].
Qed.

Lemma ends_with_bind {A B} (last : string) (c : @P World A) (k : A -> @P World B) :
  writes c -> (forall a, ends_with last (k a)) -> ends_with last (pbind c k).
Proof.
  intros Hc Hk m out. destruct (Hc m out) as (l1 & H1). unfold pbind.
  destruct (c m out) as [[m' out'] [a|e]]; cbn [fst snd] in *; subst out'.
  - destruct (Hk a m' (out ++ l1)%list) as (l2 & H2).
    exists (l1 ++ l2)%list.
    destruct (snd (k a m' (out ++ l1)%list)); rewrite H2;
      now rewrite <- !app_assoc.
  - now exists l1.
Qed.

(** The part of [main] after its first call. *)
Lemma main_body_eq (m : machine) (out : list string) :
  exists k : value -> @P World unit,
    main_body requests_post m out =
      pbind (method (perform requests_post Initialize)) k m
        (out ++ ["Initializing MCP connection..."])%list
    /\ (forall a, posts requests_post (k a) (tl main_calls))
    /\ (forall a, ends_with "Done!" (k a)).
Proof.
  eexists. split; [unfold main_body; rewrite pbind_print by reflexivity; reflexivity|].
  split; intros init_result.
  - change (list_tools requests_post) with (perform requests_post ListTools).
    change (query requests_post accounts_soql)
      with (perform requests_post (Query accounts_soql)).
    change (describe_object requests_post "Account" false)
      with (perform requests_post (DescribeObject "Account" false)).
    change (tooling_query requests_post apex_soql)
      with (perform requests_post (ToolingQuery apex_soql)).
    cbn [tl main_calls].
    repeat first
      [ apply posts_print
      | apply posts_call; intros ?
      | apply posts_quiet_bind;
          [ first [apply posts_print | apply posts_expr | apply posts_print_records]
          | intros ? ] ].
  - repeat first
      [ apply ends_with_print; reflexivity
      | apply ends_with_bind;
          [ first [ apply writes_print
                  | apply writes_expr
                  | apply writes_method
                  | apply writes_print_records ]
          | intros ? ] ].
Qed.

End MainFacts.

(** X16.  Whatever the network answers, [main] posts the first [n] of its
    five requests, for some [n] from 1 to 5, in the order initialize,
    tools/list, query, describe-object, tooling-query, with the ids 1 to [n],
    and nothing else; it stops posting at the first step that raises, and
    when it returns it has posted all five. *)
Theorem main_posts_a_prefix
  {World : Type} (requests_post : World -> request -> World * (request_failure + response))
  (w : World) :
  let run := main requests_post w in
  exists n : nat,
    (1 <= n <= 5)%nat
    /\ wire (fst (fst run)) = firstn n main_requests
    /\ request_id (self (fst (fst run))) = Z.of_nat n
    /\ (snd run = Return tt -> n = 5%nat).
Proof.
  cbv zeta. unfold main.
  destruct (main_body_eq requests_post (fresh example_client w) [])
    as (k & Heq & Hp & _).
  rewrite Heq.
  destruct (posts_call_bind requests_post Initialize k _ Hp (fresh example_client w)
              ([] ++ ["Initializing MCP connection..."])%list)
    as (n & Hn & Hm & Hr).
  exists n. cbn [tl main_calls List.length] in Hn, Hr. split; [exact Hn|].
  rewrite Hm.
  destruct (perform_all_wire requests_post (firstn n (Initialize :: tl main_calls))
              (fresh example_client w)) as [Hw Hs].
  rewrite Hw, Hs. cbn [fresh wire self app].
  split; [|split; [|apply Hr]].
  - destruct n as [|[|[|[|[|[|n]]]]]]; try lia; reflexivity.
  - destruct n as [|[|[|[|[|[|n]]]]]]; try lia; reflexivity.
Qed.

(** X17.  The output of [main] always starts with the line that announces
    the connection, and when [main] returns its last line is [Done!]. *)
Theorem main_output_frame
  {World : Type} (requests_post : World -> request -> World * (request_failure + response))
  (w : World) :
  let run := main requests_post w in
  let out := snd (fst run) in
  exists lines : list string,
    match snd run with
    | Return _ => out = "Initializing MCP connection..." :: (lines ++ ["Done!"])%list
    | Raise _ => out = "Initializing MCP connection..." :: lines
    end.
Proof.
  cbv zeta. unfold main.
  destruct (main_body_eq requests_post (fresh example_client w) [])
    as (k & Heq & _ & He).
  rewrite Heq.
  destruct (ends_with_bind "Done!"
              (method (perform requests_post Initialize)) k
              (writes_method _) He (fresh example_client w)
              ([] ++ ["Initializing MCP connection..."])%list)
    as (lines & Hout).
  cbn [app] in Hout |- *. exists lines. exact Hout.
Qed.

(** X18.  [main] handles no exception: when its first call raises, [main]
    raises the same exception after one request and the one line printed
    before the call. *)
Theorem main_aborts_when_initialize_raises
  {World : Type} (requests_post : World -> request -> World * (request_failure + response))
  (w : World) (e : py_exception) :
  snd (initialize requests_post (fresh example_client w)) = Raise e ->
  snd (main requests_post w) = Raise e
  /\ snd (fst (main requests_post w)) = ["Initializing MCP connection..."]
  /\ wire (fst (fst (main requests_post w))) = firstn 1 main_requests.
Proof.
  intros H.
  assert (Hrun : main requests_post w =
                   (fst (initialize requests_post (fresh example_client w)),
                    ["Initializing MCP connection..."], Raise e)).
  { unfold main, main_body. rewrite pbind_print by reflexivity.
    unfold pbind at 1, method at 1.
    destruct (initialize requests_post (fresh example_client w)) as [m1 r].
    cbn [snd fst app] in *. subst r. reflexivity. }
  rewrite Hrun. cbn [fst snd]. repeat split.
  change (initialize requests_post) with (perform requests_post Initialize).
  rewrite perform_wire. reflexivity.
Qed.

Lemma main_aborts_when_initialize_raises_witness :
  snd (initialize (failing_network RequestsTimeout) (fresh example_client tt)) =
    Raise (RequestException RequestsTimeout)
  /\ snd (main (failing_network RequestsTimeout) tt) =
       Raise (RequestException RequestsTimeout)
  /\ snd (fst (main (failing_network RequestsTimeout) tt)) =
       ["Initializing MCP connection..."]
  /\ wire (fst (fst (main (failing_network RequestsTimeout) tt))) =
       firstn 1 main_requests.
Proof.
  split; [reflexivity|].
  apply (main_aborts_when_initialize_raises (failing_network RequestsTimeout) tt
           (RequestException RequestsTimeout)).
  reflexivity.
Defined.

(** A run of [main] against a server that answers every request with the
    empty object: every default of [main] shows. *)
Example main_on_empty_answers :
  main scripted_server ["{}"; "{}"; "{}"; "{}"; "{}"] =
    ({| self := set_request_id example_client 5;
        world := [];
        wire := main_requests |},
     ["Initializing MCP connection..."; "Server Info: None"; "";
      "Listing available tools..."; "Available tools: []"; "";
      "Querying Accounts..."; "Found 0 accounts"; "";
      "Describing Account object..."; "Account label: None";
      "Number of fields: 0"; ""; "Listing Apex Classes...";
      "Found 0 Apex classes"; ""; "Done!"],
     Return tt).
Proof. reflexivity. Qed.
